(** * Shape classification of a freehand sketch

    A shallow embedding of [detect_shape] and [is_arrow] from
    [src/video_annotation_shape_detection.py].

    - Python and numpy floating-point values are binary64 numbers, modelled by
      Rocq's primitive floats with their IEEE-754 operations.
    - A Python exception raised by the modelled code is an explicit result.
    - OpenCV and the C math library are interfaces ([OpenCV], [Numpy]): the
      script only calls them.  [cv2.boundingRect] is written out, following
      OpenCV's documentation for integer point sets.
    - [cv2.convexityDefects] either returns or raises [cv2.error]; the
      script has no handler, so the exception leaves [is_arrow] and
      [detect_shape]. *)

From Stdlib Require Import Ascii String ZArith List Bool Floats Lia Permutation.
Import ListNotations.

Set Warnings "-inexact-float,-notation-for-abbreviation".

(** ** Python values and exceptions *)

Module Py.

Inductive exn : Type :=
| ZeroDivisionError
| IndexError
| ValueError
| NameError
| CvError.

Inductive result (A : Type) : Type :=
| Ok (a : A)
| Raise (e : exn).

Arguments Ok {A} a.
Arguments Raise {A} e.

Definition bind {A B : Type} (r : result A) (k : A -> result B) : result B :=
  match r with
  | Ok a => k a
  | Raise e => Raise e
  end.

(** [l[i]] on a sequence: a negative index counts from the end, an index
    outside [-len, len) raises IndexError. *)
Definition getitem {A : Type} (l : list A) (i : Z) : result A :=
  let n := Z.of_nat (length l) in
  let j := if (i <? 0)%Z then (i + n)%Z else i in
  if ((0 <=? j) && (j <? n))%Z
  then match nth_error l (Z.to_nat j) with
       | Some a => Ok a
       | None => Raise IndexError
       end
  else Raise IndexError.

(** [float(z)], also the conversion numpy applies to an integer array.  The
    conversion is exact below 2^53, which covers every pixel coordinate. *)
Definition float_of_int (z : Z) : float :=
  match z with
  | Z0 => 0%float
  | Zpos _ => of_uint63 (Uint63.of_Z z)
  | Zneg p => (- of_uint63 (Uint63.of_Z (Zpos p)))%float
  end.

(** [w / float(h)] on Python ints: [float(h)] is [0.0] exactly when [h] is
    [0], and a Python float division by [0.0] raises ZeroDivisionError. *)
Definition int_div_float (w h : Z) : result float :=
  if (h =? 0)%Z then Raise ZeroDivisionError
  else Ok (float_of_int w / float_of_int h)%float.

(** The scan of [max(iterable, key=...)]: the running best is replaced only
    by an item whose key is strictly greater. *)
Fixpoint max_from {A : Type} (key : A -> float) (best : A) (l : list A) : A :=
  match l with
  | [] => best
  | x :: l' =>
      if (key best <? key x)%float then max_from key x l'
      else max_from key best l'
  end.

(** [max(l, key=key)]; ValueError on an empty sequence. *)
Definition max {A : Type} (key : A -> float) (l : list A) : result A :=
  match l with
  | [] => Raise ValueError
  | x :: l' => Ok (max_from key x l')
  end.

End Py.

Import Py.

Notation "x <- r ;; k" := (Py.bind r (fun x => k))
  (at level 61, r at next level, right associativity).

(** ** Geometry *)

(** A pixel position [(x, y)]. *)
Definition point : Type := (Z * Z)%type.

(** A contour or polygon: the rows of an OpenCV point array of shape (N, 1, 2). *)
Definition contour : Type := list point.

(** A row [(s, e, f, d)] of the array returned by [cv2.convexityDefects]:
    start index, end index, farthest-point index, fixed-point depth. *)
Definition defect : Type := (Z * Z * Z * Z)%type.

(** The numpy functions the script uses that are not IEEE-754 primitives:
    [np.arccos], and the power [x ** y] of [np.float64] scalars, which is the
    C library's [pow]. *)
Record Numpy : Type := {
  arccos : float -> float;
  power : float -> float -> float
}.

(** [np.pi] *)
Definition np_pi : float := 3.141592653589793%float.

(** [np.linalg.norm(np.array(p) - np.array(q))] *)
Definition norm (p q : point) : float :=
  let dx := float_of_int (fst p - fst q) in
  let dy := float_of_int (snd p - snd q) in
  PrimFloat.sqrt (dx * dx + dy * dy)%float.

(** The quotient handed to [np.arccos] (line 225):
    [(b**2 + c**2 - a**2) / (2 * b * c)]. *)
Definition cosine (np : Numpy) (start end_ far : point) : float :=
  let a := norm start end_ in
  let b := norm start far in
  let c := norm end_ far in
  ((power np b 2 + power np c 2 - power np a 2) / (2 * b * c))%float.

(** [np.arccos(...) * 180.0 / np.pi] (line 225). *)
Definition angle (np : Numpy) (start end_ far : point) : float :=
  (arccos np (cosine np start end_ far) * 180 / np_pi)%float.

(** The three points of a defect, read from the contour (lines 218-221). *)
Definition defect_points (cnt : contour) (d : defect)
  : result (point * point * point) :=
  let '(s, e, f, _) := d in
  start <- getitem cnt s ;;
  end_ <- getitem cnt e ;;
  far <- getitem cnt f ;;
  Ok (start, end_, far).

(** The angle of one defect. *)
Definition defect_angle (np : Numpy) (cnt : contour) (d : defect) : result float :=
  pts <- defect_points cnt d ;;
  let '(start, end_, far) := pts in
  Ok (angle np start end_ far).

(** The body of the [for] loop of [is_arrow] (lines 217-233), with the running
    [count]; falling out of the loop returns False (line 236). *)
Fixpoint defects_loop (np : Numpy) (cnt : contour) (ds : list defect) (count : nat)
  : result bool :=
  match ds with
  | [] => Ok false
  | d :: rest =>
      theta <- defect_angle np cnt d ;;
      let count := if (theta <=? 90)%float then S count else count in
      if (1 <? count)%nat then Ok true
      else defects_loop np cnt rest count
  end.

(** ** OpenCV *)

(** The flag constants the script passes. *)
Inductive cv_flag : Type :=
| COLOR_BGR2GRAY
| RETR_TREE
| CHAIN_APPROX_SIMPLE.

(** How a call into OpenCV that may fail ends: with a value, or with the
    exception [cv2.error]. *)
Inductive cv_outcome (A : Type) : Type :=
| Returns (a : A)
| Throws.

Arguments Returns {A} a.
Arguments Throws {A}.

(** The outcome as the caller sees it when no handler is in place. *)
Definition cv_call {A : Type} (o : cv_outcome A) : result A :=
  match o with
  | Returns a => Ok a
  | Throws => Raise CvError
  end.

(** The OpenCV calls of [detect_shape] and [is_arrow].  [findContours] also
    returns a hierarchy, which the script discards; [convexHull] is called
    with [returnPoints=False] and yields indices into the contour;
    [convexityDefects] yields [None] when the contour has no defect, and
    raises [cv2.error] when it rejects the hull, as it does for a contour
    that crosses or retraces itself. *)
Record OpenCV : Type := {
  image : Type;
  cvtColor : image -> cv_flag -> image;
  GaussianBlur : image -> Z * Z -> Z -> image;
  Canny : image -> Z -> Z -> image;
  findContours : image -> cv_flag -> cv_flag -> list contour;
  contourArea : contour -> float;
  arcLength : contour -> bool -> float;
  approxPolyDP : contour -> float -> bool -> contour;
  convexHull : contour -> list Z;
  convexityDefects : contour -> list Z -> cv_outcome (option (list defect))
}.

(** [cv2.boundingRect] of an integer point set: the up-right rectangle
    [(x, y, w, h)] whose extent counts both border pixels; the empty
    rectangle for no points. *)
Definition boundingRect (pts : contour) : Z * Z * Z * Z :=
  match pts with
  | [] => (0, 0, 0, 0)%Z
  | p :: rest =>
      let xmin := fold_left Z.min (map fst rest) (fst p) in
      let xmax := fold_left Z.max (map fst rest) (fst p) in
      let ymin := fold_left Z.min (map snd rest) (snd p) in
      let ymax := fold_left Z.max (map snd rest) (snd p) in
      (xmin, ymin, xmax - xmin + 1, ymax - ymin + 1)%Z
  end.

(** The mouse events the callback tells apart. *)
Inductive mouse_event : Type :=
| EVENT_LBUTTONDOWN
| EVENT_MOUSEMOVE
| EVENT_LBUTTONUP
| EVENT_OTHER.

(** ** The script *)

Section Script.

Context (np : Numpy) (cv : OpenCV).

(** [is_arrow(contour)] (lines 198-236). *)
Definition is_arrow (cnt : contour) : result bool :=
  let hull := convexHull cv cnt in
  if (length hull <? 3)%nat then Ok false
  else
    defects <- cv_call (convexityDefects cv cnt hull) ;;
    match defects with
    | None => Ok false
    | Some defects => defects_loop np cnt defects 0
    end.

(** The dispatch on the vertex count of [approx] (lines 176-196); [c] is
    the contour [approx] was computed from. *)
Definition classify (approx c : contour) : result string :=
  if (length approx =? 3)%nat then Ok "Triangle"%string
  else if (length approx =? 4)%nat then
    let '(_, _, w, h) := boundingRect approx in
    aspect_ratio <- int_div_float w h ;;
    if ((0.95 <=? aspect_ratio) && (aspect_ratio <=? 1.05))%float
    then Ok "Square"%string
    else Ok "Rectangle"%string
  else if (4 <? length approx)%nat then
    arrow <- is_arrow c ;;
    if arrow then Ok "Arrow"%string else Ok "Circle"%string
  else Ok "Unknown shape"%string.

(** Lines 143-156: grayscale, blur, edges, contours. *)
Definition find_contours (canvas : image cv) : list contour :=
  let gray := cvtColor cv canvas COLOR_BGR2GRAY in
  let blurred := GaussianBlur cv gray (5, 5)%Z 0%Z in
  let edged := Canny cv blurred 50%Z 150%Z in
  findContours cv edged RETR_TREE CHAIN_APPROX_SIMPLE.

(** Line 164: [max(contours, key=cv2.contourArea)]. *)
Definition primary_contour (contours : list contour) : result contour :=
  Py.max (contourArea cv) contours.

(** Line 169. *)
Definition epsilon (c : contour) : float :=
  (0.04 * arcLength cv c true)%float.

(** Line 170. *)
Definition simplify (c : contour) : contour :=
  approxPolyDP cv c (epsilon c) true.

(** [detect_shape(canvas)] (lines 140-196). *)
Definition detect_shape (canvas : image cv) : result string :=
  let contours := find_contours canvas in
  if (length contours =? 0)%nat then Ok "No shape detected"%string
  else
    c <- primary_contour contours ;;
    classify (simplify c) c.

(** The module-level variables of the script: [drawing], [mode], [ix],
    [iy], and [canvas], which is not defined before the first frame. *)
Record Globals : Type := {
  drawing : bool;
  mode : bool;
  ix : Z;
  iy : Z;
  canvas : option (image cv)
}.

(** [cv2.line(img, p, q, colour, thickness)], as the image it leaves. *)
Context (line : image cv -> point -> point -> Z * Z * Z -> Z -> image cv).

(** The stroke of the mouse callback from [(ix, iy)] to [(x, y)]: red and
    5 wide in draw mode, black and 20 wide in erase mode (lines 52-59 and
    68-73). *)
Definition stroke (x y : Z) (g : Globals) : result unit * Globals :=
  match canvas g with
  | None => (Raise NameError, g)
  | Some img =>
      let img' :=
        if mode g then line img (ix g, iy g) (x, y) (0, 0, 255)%Z 5%Z
        else line img (ix g, iy g) (x, y) (0, 0, 0)%Z 20%Z in
      (Ok tt,
       {| drawing := drawing g; mode := mode g; ix := ix g; iy := iy g;
          canvas := Some img' |})
  end.

(** [draw(event, x, y, flags, param)] (lines 25-73), the one function that
    declares [global ix, iy, drawing, mode, canvas]. *)
Definition draw (event : mouse_event) (x y : Z) (g : Globals)
  : result unit * Globals :=
  match event with
  | EVENT_LBUTTONDOWN =>
      (Ok tt,
       {| drawing := true; mode := mode g; ix := x; iy := y;
          canvas := canvas g |})
  | EVENT_MOUSEMOVE =>
      if drawing g then
        match stroke x y g with
        | (Ok _, g') =>
            (Ok tt,
             {| drawing := drawing g'; mode := mode g'; ix := x; iy := y;
                canvas := canvas g' |})
        | (Raise e, g') => (Raise e, g')
        end
      else (Ok tt, g)
  | EVENT_LBUTTONUP =>
      stroke x y
        {| drawing := false; mode := mode g; ix := ix g; iy := iy g;
           canvas := canvas g |}
  | EVENT_OTHER => (Ok tt, g)
  end.

End Script.

(** The labels of the classification. *)
Definition shape_labels : list string :=
  ["Triangle"; "Square"; "Rectangle"; "Circle"; "Arrow"; "Unknown shape";
   "No shape detected"]%string.

(** ** Predicates used in the statements *)

(** An index that [contour[i]] accepts. *)
Definition index_ok (cnt : contour) (i : Z) : bool :=
  ((- Z.of_nat (length cnt) <=? i) && (i <? Z.of_nat (length cnt)))%Z.

(** A defect whose three indices address points of the contour. *)
Definition defect_ok (cnt : contour) (d : defect) : bool :=
  let '(s, e, f, _) := d in
  index_ok cnt s && index_ok cnt e && index_ok cnt f.

(** A sharp defect: its angle compares [<= 90]. *)
Definition is_sharp (np : Numpy) (cnt : contour) (d : defect) : bool :=
  match defect_angle np cnt d with
  | Ok theta => (theta <=? 90)%float
  | Raise _ => false
  end.

(** The number of sharp defects. *)
Definition count_sharp (np : Numpy) (cnt : contour) (ds : list defect) : nat :=
  length (filter (is_sharp np cnt) ds).

(** The rows [convexityDefects] returns for a contour, if it returns any,
    address points of it. *)
Definition rows_readable (cv : OpenCV) (cnt : contour) : bool :=
  match convexityDefects cv cnt (convexHull cv cnt) with
  | Returns (Some ds) => forallb (defect_ok cnt) ds
  | _ => true
  end.

(** [convexityDefects] accepts the contour and its hull. *)
Definition defects_returned (cv : OpenCV) (cnt : contour) : bool :=
  match convexityDefects cv cnt (convexHull cv cnt) with
  | Returns _ => true
  | Throws => false
  end.

(** [convexityDefects] returns for the contour, and its rows address points
    of it. *)
Definition defects_ok (cv : OpenCV) (cnt : contour) : bool :=
  defects_returned cv cnt && rows_readable cv cnt.

(** *** The angle in the words of the specification

    Section 4.2 of the specification, step 3: for the triangle (start, end,
    farthest), with a = |start - end|, b = |start - far|, c = |end - far|,
    the angle at the farthest point is arccos((b^2 + c^2 - a^2) / (2bc)) in
    degrees; step 4 counts the defects whose angle is at most 90.  These
    definitions follow those words, to be compared with [angle] and the
    loop. *)

(** |p - q|, the Euclidean distance of two pixel positions. *)
Definition side (p q : point) : float :=
  PrimFloat.sqrt
    (float_of_int (fst p - fst q) * float_of_int (fst p - fst q)
     + float_of_int (snd p - snd q) * float_of_int (snd p - snd q))%float.

(** arccos((b^2 + c^2 - a^2) / (2bc)), in degrees. *)
Definition law_of_cosines_degrees (np : Numpy) (a b c : float) : float :=
  (arccos np ((power np b 2 + power np c 2 - power np a 2) / (2 * b * c))
   * 180 / np_pi)%float.

(** The defect has an angle of at most 90 degrees at its farthest point. *)
Definition sharp_by_law (np : Numpy) (cnt : contour) (d : defect) : bool :=
  let '(s, e, f, _) := d in
  match getitem cnt s, getitem cnt e, getitem cnt f with
  | Ok start, Ok end_, Ok far =>
      (law_of_cosines_degrees np
         (side start end_) (side start far) (side end_ far) <=? 90)%float
  | _, _, _ => false
  end.

(** The number of defects with an angle of at most 90 degrees. *)
Definition count_sharp_by_law (np : Numpy) (cnt : contour) (ds : list defect)
  : nat :=
  length (filter (sharp_by_law np cnt) ds).

(** The quotient [w / float(h)] of the bounding rectangle of a polygon. *)
Definition aspect_ratio (approx : contour) : float :=
  let '(_, _, w, h) := boundingRect approx in
  (float_of_int w / float_of_int h)%float.

(** The closed interval [0.95 <= r <= 1.05]. *)
Definition in_square_band (r : float) : bool :=
  ((0.95 <=? r) && (r <=? 1.05))%float.

(** No contour of the list has a NaN for its area. *)
Definition areas_are_numbers (cv : OpenCV) (contours : list contour) : bool :=
  forallb (fun c => negb (is_nan (contourArea cv c))) contours.

(** What the image operations do with images that carry no ink, for a
    notion [blank] of such images. *)
Record BlankLaws (cv : OpenCV) (blank : image cv -> Prop) : Prop := {
  cvtColor_blank :
    forall img flag, blank img -> blank (cvtColor cv img flag);
  GaussianBlur_blank :
    forall img ksize sigma, blank img -> blank (GaussianBlur cv img ksize sigma);
  Canny_blank :
    forall img low high, blank img -> blank (Canny cv img low high);
  findContours_blank :
    forall img mode method, blank img -> findContours cv img mode method = []
}.

(** ** A polygon world to run the script in

    An instance of the two interfaces in which an image is the list of closed
    polygons drawn on it: the hull lists every vertex, a defect is a vertex
    that turns inward, and polygons are kept as they are.  It serves the
    examples below: every definition here can be evaluated. *)

Module Sketch.

(** Defined on [-1, 1] and NaN elsewhere, as libm's [acos]; inside the
    domain it is the chord through [acos]'s values at -1, 0 and 1. *)
Definition acos_chord (x : float) : float :=
  if ((-1 <=? x) && (x <=? 1))%float
  then ((1 - x) * 1.5707963267948966)%float
  else nan.

(** The square as the rounded product, NaN for any other exponent; C's
    [pow] may differ from it in the last bit. *)
Definition pow_square (x y : float) : float :=
  if (y =? 2)%float then (x * x)%float else nan.

Definition np : Numpy := {| arccos := acos_chord; power := pow_square |}.

(** The sides of the closed polygon. *)
Definition sides (c : contour) : list (point * point) :=
  match c with
  | [] => []
  | p :: rest => combine c (rest ++ [p])
  end.

(** Twice the signed area (shoelace formula). *)
Definition shoelace (c : contour) : Z :=
  fold_left
    (fun acc s => (acc + (fst (fst s) * snd (snd s) - fst (snd s) * snd (fst s)))%Z)
    (sides c) 0%Z.

Definition area (c : contour) : float :=
  (float_of_int (Z.abs (shoelace c)) / 2)%float.

Definition perimeter (c : contour) (closed : bool) : float :=
  fold_left (fun acc s => (acc + norm (fst s) (snd s))%float)
    (if closed then sides c else combine c (tl c)) 0%float.

(** The turn at [v] coming from [p] and going to [q]. *)
Definition cross (p v q : point) : Z :=
  ((fst v - fst p) * (snd q - snd v) - (snd v - snd p) * (fst q - fst v))%Z.

(** One defect per vertex that turns against the polygon's orientation,
    between its two neighbours. *)
Definition reflex_defects (c : contour) : list defect :=
  let n := Z.of_nat (length c) in
  let o := shoelace c in
  flat_map
    (fun i =>
       let s := ((i - 1) mod n)%Z in
       let e := ((i + 1) mod n)%Z in
       match getitem c s, getitem c i, getitem c e with
       | Ok p, Ok v, Ok q =>
           if (cross p v q * o <? 0)%Z then [(s, e, i, 0%Z)] else []
       | _, _, _ => []
       end)
    (map Z.of_nat (seq 0 (length c))).

Definition point_eqb (p q : point) : bool :=
  ((fst p =? fst q) && (snd p =? snd q))%Z.

(** The polygon passes twice through one of its points. *)
Fixpoint retraces (c : contour) : bool :=
  match c with
  | [] => false
  | p :: rest => existsb (point_eqb p) rest || retraces rest
  end.

(** [convexityDefects] refuses a polygon that passes twice through a point,
    which stands for the contours OpenCV rejects. *)
Definition cv : OpenCV := {|
  image := list contour;
  cvtColor := fun img _ => img;
  GaussianBlur := fun img _ _ => img;
  Canny := fun img _ _ => img;
  findContours := fun img _ _ => img;
  contourArea := area;
  arcLength := perimeter;
  approxPolyDP := fun c _ _ => c;
  convexHull := fun c => map Z.of_nat (seq 0 (length c));
  convexityDefects := fun c _ =>
    if retraces c then Throws
    else match reflex_defects c with
         | [] => Returns None
         | ds => Returns (Some ds)
         end
|}.

(** A figure of eight that crosses itself at (4, 4). *)
Definition scribble : contour :=
  [(0, 0); (4, 4); (8, 0); (8, 8); (4, 4); (0, 8)]%Z.

(** An arrow outline with swept-back barbs, a unit-step octagon, a square
    of side 100 and a stray triangle. *)
Definition arrow : contour :=
  [(0, 1); (4, 1); (3, -1); (7, 2); (3, 5); (4, 3); (0, 3)]%Z.

Definition octagon : contour :=
  [(1, 0); (2, 0); (3, 1); (3, 2); (2, 3); (1, 3); (0, 2); (0, 1)]%Z.

Definition square : contour :=
  [(0, 0); (99, 0); (99, 99); (0, 99)]%Z.

Definition speck : contour :=
  [(0, 0); (2, 0); (0, 2)]%Z.

(** Overlaying two images shows the polygons of both. *)
Definition addWeighted (a : list contour) (alpha : float) (b : list contour)
           (beta : float) (gamma : Z) : list contour :=
  a ++ b.

(** An image of the same size with nothing on it. *)
Definition zeros_like (img : list contour) : list contour := [].

(** A coloured stroke adds the segment; a black one wipes out the polygons
    it meets at a vertex. *)
Definition line (img : list contour) (p q : point) (colour : Z * Z * Z)
           (thickness : Z) : list contour :=
  match colour with
  | (0, 0, 0)%Z =>
      filter (fun c => negb (existsb (fun v => point_eqb v p || point_eqb v q) c))
        img
  | _ => img ++ [[p; q]]
  end.

End Sketch.

(** ** The capture loop

    The [while True] loop of [capture] (lines 95-134), driven by what the
    camera, the mouse and the keyboard supply.  The set-up before the loop
    and the release after it (lines 79-93 and 136-138) are calls whose
    results the loop does not use; they are left out. *)

(** What one pass of the loop of [capture] leaves outside the module
    variables: a printed line, a frame shown in a window, a file written. *)
Inductive effect (img : Type) : Type :=
| Printed (text : string)
| Shown (window : string) (frame : img)
| Written (path : string) (frame : img).

Arguments Printed {img} text.
Arguments Shown {img} window frame.
Arguments Written {img} path frame.

(** How a pass leaves the [while True] loop: into the next pass or out of it. *)
Inductive control : Type :=
| Continue
| Break.

(** How a run over finitely many passes ends: still looping, or past the
    loop. *)
Inductive status : Type :=
| Looping
| Ended.

(** [ord(c)] *)
Definition ord (c : Ascii.ascii) : Z := Z.of_N (Ascii.N_of_ascii c).

(** [os.path.join(a, b)] for a relative [b] and a non-empty [a] that does not
    end in the separator. *)
Definition path_join (sep a b : string) : string :=
  (a ++ sep ++ b)%string.

Section Capture.

Context (np : Numpy) (cv : OpenCV).

(** [cv2.line], [np.zeros_like] and [cv2.addWeighted] on images, and
    [os.sep]. *)
Context (line : image cv -> point -> point -> Z * Z * Z -> Z -> image cv).
Context (zeros_like : image cv -> image cv).
Context (addWeighted : image cv -> float -> image cv -> float -> Z -> image cv).
Context (sep : string).

(** What the outside world supplies to one pass: the pair returned by
    [cap.read()], the mouse events HighGUI hands to the callback while
    [cv2.waitKey(1)] runs, and the value [cv2.waitKey(1)] returns. *)
Record tick : Type := {
  ret : bool;
  frame : image cv;
  mouse : list (mouse_event * Z * Z);
  key : Z
}.

Definition with_mode (m : bool) (g : Globals cv) : Globals cv :=
  {| drawing := drawing cv g; mode := m; ix := ix cv g; iy := iy cv g;
     canvas := canvas cv g |}.

Definition with_canvas (img : image cv) (g : Globals cv) : Globals cv :=
  {| drawing := drawing cv g; mode := mode cv g; ix := ix cv g; iy := iy cv g;
     canvas := Some img |}.

(** The callback [draw] run on the events of one [waitKey], in order; an
    exception of the callback ends the delivery. *)
Fixpoint deliver (events : list (mouse_event * Z * Z)) (g : Globals cv)
  : result unit * Globals cv :=
  match events with
  | [] => (Ok tt, g)
  | (event, x, y) :: rest =>
      match draw cv line event x y g with
      | (Ok _, g') => deliver rest g'
      | (Raise e, g') => (Raise e, g')
      end
  end.

(** The key dispatch of one pass (lines 117-134), on the low byte [k] of the
    key code, with the frame of this pass and the picture [combined] that was
    shown. *)
Definition on_key (k : Z) (frm combined : image cv) (g : Globals cv)
  : list (effect (image cv)) * result control * Globals cv :=
  if (k =? ord "q"%char)%Z then ([], Ok Break, g)
  else if (k =? ord "m"%char)%Z then ([], Ok Continue, with_mode (negb (mode cv g)) g)
  else if (k =? ord "s"%char)%Z then
    let frame_filename := path_join sep "frames" "annotated_frame.jpg" in
    let saved :=
      [Written frame_filename combined;
       Printed ("Saved: " ++ frame_filename)%string] in
    match canvas cv g with
    | None => (saved, Raise NameError, g)
    | Some cnv =>
        match detect_shape np cv cnv with
        | Ok shape =>
            (saved ++ [Printed ("Detected shape: " ++ shape)%string],
             Ok Continue, g)
        | Raise e => (saved, Raise e, g)
        end
    end
  else if (k =? ord "c"%char)%Z then ([], Ok Continue, with_canvas (zeros_like frm) g)
  else ([], Ok Continue, g).

(** One pass of the [while True] loop (lines 95-134). *)
Definition pass (t : tick) (g : Globals cv)
  : list (effect (image cv)) * result control * Globals cv :=
  if negb (ret t) then
    ([Printed "Error: Could not read frame."%string], Ok Break, g)
  else
    let '(cnv, g1) :=
      match canvas cv g with
      | None => (zeros_like (frame t), with_canvas (zeros_like (frame t)) g)
      | Some img => (img, g)
      end in
    let combined := addWeighted (frame t) 0.7%float cnv 0.3%float 0%Z in
    let shown := Shown "Frame"%string combined in
    match deliver (mouse t) g1 with
    | (Raise e, g2) => ([shown], Raise e, g2)
    | (Ok _, g2) =>
        let '(out, r, g3) := on_key (Z.land (key t) 255) (frame t) combined g2 in
        (shown :: out, r, g3)
    end.

(** The loop over the passes the outside world supplies. *)
Fixpoint run (ts : list tick) (g : Globals cv)
  : list (effect (image cv)) * result status * Globals cv :=
  match ts with
  | [] => ([], Ok Looping, g)
  | t :: rest =>
      match pass t g with
      | (out, Ok Continue, g') =>
          let '(out', r, g'') := run rest g' in (out ++ out', r, g'')
      | (out, Ok Break, g') => (out, Ok Ended, g')
      | (out, Raise e, g') => (out, Raise e, g')
      end
  end.

End Capture.

(** ** Vocabulary for the statements about the callback and the loop *)

(** The module variables when the script starts (lines 21-23); [canvas] is
    not defined yet. *)
Definition initial_globals (cv : OpenCV) : Globals cv :=
  {| drawing := false; mode := true; ix := (-1)%Z; iy := (-1)%Z;
     canvas := None |}.

(** Colour and thickness of the stroke in draw mode and in erase mode. *)
Definition pen (m : bool) : (Z * Z * Z) * Z :=
  if m then ((0, 0, 255)%Z, 5%Z) else ((0, 0, 0)%Z, 20%Z).

(** The segments from [start] through [pts], one after the other, drawn with
    [line] on [img]. *)
Fixpoint strokes {img : Type} (line : img -> point -> point -> Z * Z * Z -> Z -> img)
         (m : bool) (picture : img) (start : point) (pts : list point) : img :=
  match pts with
  | [] => picture
  | p :: rest =>
      strokes line m (line picture start p (fst (pen m)) (snd (pen m))) p rest
  end.

(** Mouse moves through the points of a path. *)
Definition moves (path : list point) : list (mouse_event * Z * Z) :=
  map (fun p => (EVENT_MOUSEMOVE, fst p, snd p)) path.

(** Button down at [p0], moves along [path], button up at [q]. *)
Definition gesture (p0 : point) (path : list point) (q : point)
  : list (mouse_event * Z * Z) :=
  (EVENT_LBUTTONDOWN, fst p0, snd p0) :: moves path
    ++ [(EVENT_LBUTTONUP, fst q, snd q)].

(** An event that presses or releases no button. *)
Definition no_button (e : mouse_event * Z * Z) : bool :=
  match fst (fst e) with
  | EVENT_MOUSEMOVE | EVENT_OTHER => true
  | _ => false
  end.

(** The low byte of the key code of a pass is the code of [c]. *)
Definition key_is {cv : OpenCV} (c : ascii) (t : tick cv) : bool :=
  (Z.land (key cv t) 255 =? ord c)%Z.

(** A pass that reads a frame and receives no mouse event. *)
Definition plain {cv : OpenCV} (t : tick cv) : bool :=
  ret cv t && match mouse cv t with [] => true | _ => false end.

(** ** Facts about binary64 arithmetic *)

(** The domain test of [acos]. *)
Definition in_acos_domain (x : float) : bool :=
  ((-1 <=? x) && (x <=? 1))%float.

(** C99 (7.12.4.1, F.10.1.1): [acos] of a NaN or of a number outside [-1, 1]
    is a NaN.  numpy then warns and carries on. *)
Definition acos_domain_law (np : Numpy) : Prop :=
  forall x, in_acos_domain x = false -> is_nan (arccos np x) = true.

(** The position of a number in the order of the floats: a sign class, then
    exponent and mantissa. *)
Definition rank (x : spec_float) : Z * Z * Z :=
  match x with
  | S754_zero _ => (0, 0, 0)%Z
  | S754_infinity s => (if s then (-2)%Z else 2%Z, 0%Z, 0%Z)
  | S754_finite s m e =>
      if s then ((-1)%Z, (- e)%Z, Zneg m) else (1%Z, e, Zpos m)
  | S754_nan => (0, 0, 0)%Z
  end.

Definition lex_compare (a b : Z * Z * Z) : comparison :=
  match (fst (fst a) ?= fst (fst b))%Z with
  | Eq => match (snd (fst a) ?= snd (fst b))%Z with
          | Eq => (snd a ?= snd b)%Z
          | o => o
          end
  | o => o
  end.

Section FloatFacts.

Local Open Scope float_scope.

Lemma is_nan_SF (x : float) : is_nan x = true -> Prim2SF x = S754_nan.
Proof.
  unfold is_nan. rewrite eqb_spec. unfold SFeqb.
  destruct (Prim2SF x) as [s | s | | s m e]; cbn; try discriminate; auto.
  - destruct s; discriminate.
  - rewrite Z.compare_refl, Pos.compare_cont_refl. destruct s; discriminate.
Qed.

Lemma SF_is_nan (x : float) : Prim2SF x = S754_nan -> is_nan x = true.
Proof.
  intros H. unfold is_nan. rewrite eqb_spec, H. reflexivity.
Qed.

Lemma is_zero_SF (x : float) :
  is_zero x = true -> exists s, Prim2SF x = S754_zero s.
Proof.
  unfold is_zero. rewrite eqb_spec. unfold SFeqb.
  change (Prim2SF zero) with (S754_zero false).
  destruct (Prim2SF x) as [s | s | | s m e]; cbn; try discriminate; eauto.
  all: destruct s; discriminate.
Qed.

Lemma nan_leb (x y : float) : is_nan x = true -> (x <=? y) = false.
Proof.
  intros H. rewrite leb_spec, (is_nan_SF _ H). reflexivity.
Qed.

Lemma nan_mul (x y : float) : is_nan x = true -> is_nan (x * y) = true.
Proof.
  intros H. apply SF_is_nan. rewrite mul_spec, (is_nan_SF _ H). reflexivity.
Qed.

Lemma nan_div (x y : float) : is_nan x = true -> is_nan (x / y) = true.
Proof.
  intros H. apply SF_is_nan. rewrite div_spec, (is_nan_SF _ H). reflexivity.
Qed.

(** A product with a zero factor is a zero or a NaN. *)
Lemma mul_zero_l (b c : float) :
  is_zero b = true -> is_zero (b * c) = true \/ is_nan (b * c) = true.
Proof.
  intros H. destruct (is_zero_SF _ H) as [s Hb].
  unfold is_zero, is_nan. rewrite !eqb_spec, mul_spec, Hb.
  destruct (Prim2SF c) as [t | t | | t m e]; cbn; auto.
Qed.

Lemma mul_zero_r (b c : float) :
  is_zero c = true -> is_zero (b * c) = true \/ is_nan (b * c) = true.
Proof.
  intros H. destruct (is_zero_SF _ H) as [s Hc].
  unfold is_zero, is_nan. rewrite !eqb_spec, mul_spec, Hc.
  destruct (Prim2SF b) as [t | t | | t m e]; cbn; auto.
Qed.

(** Whatever the dividend, a quotient by a zero or by a NaN is an infinity
    or a NaN: it fails the domain test of [acos]. *)
Lemma div_zero_outside (n d : float) :
  is_zero d = true \/ is_nan d = true -> in_acos_domain (n / d) = false.
Proof.
  unfold in_acos_domain. rewrite !leb_spec, div_spec.
  intros [H | H].
  - destruct (is_zero_SF _ H) as [s ->].
    destruct (Prim2SF n) as [[|] | [|] | | [|] m e], s; reflexivity.
  - rewrite (is_nan_SF _ H).
    destruct (Prim2SF n) as [[|] | [|] | | [|] m e]; reflexivity.
Qed.

(** *** The order of the floats that are not NaN *)

Lemma SFcompare_rank (x y : spec_float) :
  x <> S754_nan -> y <> S754_nan ->
  SFcompare x y = Some (lex_compare (rank x) (rank y)).
Proof.
  intros Hx Hy.
  destruct x as [s | s | | s m e], y as [t | t | | t n f];
    try congruence; try (destruct s, t; reflexivity);
    try (destruct s; reflexivity); try (destruct t; reflexivity).
  destruct s, t; try reflexivity; unfold SFcompare, lex_compare, rank; cbn [fst snd].
  rewrite Z.compare_opp, (Z.compare_antisym e f).
  destruct (e ?= f)%Z; reflexivity.
Qed.

Ltac lex_cases :=
  unfold lex_compare; cbn [fst snd];
  repeat match goal with
         | |- context [(?a ?= ?b)%Z] => destruct (Z.compare_spec a b)
         | H : context [(?a ?= ?b)%Z] |- _ => destruct (Z.compare_spec a b)
         end;
  try congruence; try lia.

Lemma lex_compare_trans (a b c : Z * Z * Z) :
  lex_compare a b <> Gt -> lex_compare b c <> Gt -> lex_compare a c <> Gt.
Proof.
  destruct a as [[a1 a2] a3], b as [[b1 b2] b3], c as [[c1 c2] c3].
  lex_cases.
Qed.

Lemma lex_compare_total (a b : Z * Z * Z) :
  lex_compare a b <> Lt -> lex_compare b a <> Gt.
Proof.
  destruct a as [[a1 a2] a3], b as [[b1 b2] b3].
  lex_cases.
Qed.

Lemma leb_rank (x y : float) :
  (x <=? y) = true <->
  is_nan x = false /\ is_nan y = false /\
  lex_compare (rank (Prim2SF x)) (rank (Prim2SF y)) <> Gt.
Proof.
  rewrite leb_spec. unfold SFleb. split.
  - intros H.
    destruct (is_nan x) eqn:Nx.
    { rewrite (is_nan_SF _ Nx) in H. discriminate. }
    destruct (is_nan y) eqn:Ny.
    { rewrite (is_nan_SF _ Ny) in H.
      destruct (Prim2SF x); discriminate. }
    rewrite SFcompare_rank in H.
    + repeat split. destruct (lex_compare _ _); congruence.
    + intros E. rewrite (SF_is_nan _ E) in Nx. discriminate.
    + intros E. rewrite (SF_is_nan _ E) in Ny. discriminate.
  - intros (Nx & Ny & H).
    rewrite SFcompare_rank.
    + destruct (lex_compare _ _); congruence.
    + intros E. rewrite (SF_is_nan _ E) in Nx. discriminate.
    + intros E. rewrite (SF_is_nan _ E) in Ny. discriminate.
Qed.

Lemma leb_trans (x y z : float) :
  (x <=? y) = true -> (y <=? z) = true -> (x <=? z) = true.
Proof.
  rewrite !leb_rank. intros (Nx & Ny & H1) (_ & Nz & H2).
  repeat split; auto. eapply lex_compare_trans; eauto.
Qed.

Lemma leb_refl (x : float) : is_nan x = false -> (x <=? x) = true.
Proof.
  intros Nx. apply leb_rank. repeat split; auto.
  destruct (rank (Prim2SF x)) as [[a b] c]. lex_cases.
Qed.

Lemma ltb_leb (x y : float) : (x <? y) = true -> (x <=? y) = true.
Proof.
  rewrite ltb_spec, leb_spec. unfold SFltb, SFleb.
  destruct (SFcompare _ _) as [[ | | ] | ]; congruence.
Qed.

Lemma not_ltb_leb (x y : float) :
  is_nan x = false -> is_nan y = false ->
  (x <? y) = false -> (y <=? x) = true.
Proof.
  intros Nx Ny H. apply leb_rank. repeat split; auto.
  apply lex_compare_total.
  rewrite ltb_spec in H. unfold SFltb in H.
  rewrite SFcompare_rank in H.
  - destruct (lex_compare _ _); congruence.
  - intros E. rewrite (SF_is_nan _ E) in Nx. discriminate.
  - intros E. rewrite (SF_is_nan _ E) in Ny. discriminate.
Qed.

End FloatFacts.

(** ** Reading points and running the loop *)

Lemma getitem_index_ok (cnt : contour) (i : Z) :
  index_ok cnt i = true -> exists p, getitem cnt i = Ok p.
Proof.
  unfold index_ok, getitem. intros H.
  apply andb_true_iff in H as [Hlo Hhi].
  apply Z.leb_le in Hlo. apply Z.ltb_lt in Hhi.
  set (n := Z.of_nat (length cnt)) in *.
  set (j := if (i <? 0)%Z then (i + n)%Z else i).
  assert (Hj : (0 <= j < n)%Z).
  { subst j. destruct (Z.ltb_spec i 0); lia. }
  destruct (Z.leb_spec 0 j); [ | lia ].
  destruct (Z.ltb_spec j n); [ | lia ]. cbn.
  destruct (nth_error cnt (Z.to_nat j)) eqn:E; eauto.
  apply nth_error_None in E. lia.
Qed.

Lemma defect_angle_ok (np : Numpy) (cnt : contour) (d : defect) :
  defect_ok cnt d = true -> exists theta, defect_angle np cnt d = Ok theta.
Proof.
  destruct d as [[[s e] f] depth]. unfold defect_ok. intros H.
  apply andb_true_iff in H as [H Hf]. apply andb_true_iff in H as [Hs He].
  destruct (getitem_index_ok _ _ Hs) as [ps Es].
  destruct (getitem_index_ok _ _ He) as [pe Ee].
  destruct (getitem_index_ok _ _ Hf) as [pf Ef].
  unfold defect_angle, defect_points. rewrite Es, Ee, Ef. cbn. eauto.
Qed.

Lemma count_sharp_cons (np : Numpy) (cnt : contour) (d : defect) (ds : list defect) :
  count_sharp np cnt (d :: ds) =
  ((if is_sharp np cnt d then 1 else 0) + count_sharp np cnt ds)%nat.
Proof.
  unfold count_sharp. cbn. destruct (is_sharp np cnt d); reflexivity.
Qed.

(** One turn of the loop on a defect whose points can be read. *)
Lemma defects_loop_step (np : Numpy) (cnt : contour) (d : defect)
      (rest : list defect) (count : nat) :
  defect_ok cnt d = true ->
  defects_loop np cnt (d :: rest) count =
  let count' := if is_sharp np cnt d then S count else count in
  if (1 <? count')%nat then Ok true else defects_loop np cnt rest count'.
Proof.
  intros H. destruct (defect_angle_ok np cnt d H) as [theta E].
  cbn [defects_loop]. unfold is_sharp. rewrite E. reflexivity.
Qed.

(** The loop on defects that can all be read: it answers whether the count
    reaches 2. *)
Lemma defects_loop_count (np : Numpy) (cnt : contour) (ds : list defect) :
  forallb (defect_ok cnt) ds = true ->
  forall count, (count <= 1)%nat ->
  defects_loop np cnt ds count = Ok (1 <? count + count_sharp np cnt ds)%nat.
Proof.
  induction ds as [ | d ds IH]; intros Hok count Hc.
  - cbn. destruct count as [ | [ | k]]; try lia; reflexivity.
  - cbn [forallb] in Hok. apply andb_true_iff in Hok as [Hd Hds].
    rewrite defects_loop_step by assumption.
    rewrite count_sharp_cons. cbv zeta.
    destruct (is_sharp np cnt d).
    + destruct count as [ | [ | k]]; try lia.
      * cbn [Nat.ltb Nat.leb]. rewrite IH by (auto; lia).
        f_equal.
      * reflexivity.
    + destruct (Nat.ltb_spec 1 count); [lia | ].
      rewrite IH by assumption. reflexivity.
Qed.

(** The loop leaves at the second sharp defect: what follows is not read. *)
Lemma defects_loop_short_circuit (np : Numpy) (cnt : contour) (pre : list defect) :
  forallb (defect_ok cnt) pre = true ->
  forall (rest : list defect) (count : nat),
  (count <= 1)%nat -> (2 <= count + count_sharp np cnt pre)%nat ->
  defects_loop np cnt (pre ++ rest) count = Ok true.
Proof.
  induction pre as [ | d pre IH]; intros Hok rest count Hc H2.
  - cbn in H2. lia.
  - cbn [forallb] in Hok. apply andb_true_iff in Hok as [Hd Hpre].
    rewrite <- app_comm_cons, defects_loop_step by assumption.
    rewrite count_sharp_cons in H2. cbv zeta.
    destruct (is_sharp np cnt d).
    + destruct count as [ | [ | k]]; try lia.
      * cbn [Nat.ltb Nat.leb]. apply IH; auto; lia.
      * reflexivity.
    + destruct (Nat.ltb_spec 1 count); [lia | ].
      apply IH; auto.
Qed.

(** ** Arrow detection *)

(** The loop's angle and count are those of the specification. *)
Lemma defect_angle_by_law (np : Numpy) (cnt : contour) (d : defect)
      (start end_ far : point) :
  defect_points cnt d = Ok (start, end_, far) ->
  defect_angle np cnt d
  = Ok (law_of_cosines_degrees np
          (side start end_) (side start far) (side end_ far)).
Proof.
  intros E. unfold defect_angle. rewrite E. reflexivity.
Qed.

Lemma sharp_by_law_is_sharp (np : Numpy) (cnt : contour) (d : defect) :
  sharp_by_law np cnt d = is_sharp np cnt d.
Proof.
  destruct d as [[[s e] f] depth].
  unfold sharp_by_law, is_sharp, defect_angle, defect_points.
  destruct (getitem cnt s); cbn; [ | reflexivity].
  destruct (getitem cnt e); cbn; [ | reflexivity].
  destruct (getitem cnt f); cbn; reflexivity.
Qed.

Lemma count_sharp_by_law_eq (np : Numpy) (cnt : contour) (ds : list defect) :
  count_sharp_by_law np cnt ds = count_sharp np cnt ds.
Proof.
  unfold count_sharp_by_law, count_sharp. f_equal.
  apply filter_ext. intros d. apply sharp_by_law_is_sharp.
Qed.

(** What [is_arrow] returns or raises, when the rows can be read. *)
Lemma is_arrow_value (np : Numpy) (cv : OpenCV) (cnt : contour) :
  rows_readable cv cnt = true ->
  is_arrow np cv cnt
  = if (length (convexHull cv cnt) <? 3)%nat then Ok false
    else match convexityDefects cv cnt (convexHull cv cnt) with
         | Throws => Raise CvError
         | Returns None => Ok false
         | Returns (Some ds) => Ok (1 <? count_sharp np cnt ds)%nat
         end.
Proof.
  unfold rows_readable, is_arrow. intros Hok.
  destruct (length (convexHull cv cnt) <? 3)%nat; [reflexivity | ].
  destruct (convexityDefects cv cnt (convexHull cv cnt)) as [[ds | ] | ];
    cbn; try reflexivity.
  rewrite (defects_loop_count np cnt ds Hok 0) by lia. reflexivity.
Qed.

(** With defects that are returned and readable [is_arrow] raises nothing. *)
Lemma is_arrow_returns (np : Numpy) (cv : OpenCV) (cnt : contour) :
  defects_ok cv cnt = true -> exists b, is_arrow np cv cnt = Ok b.
Proof.
  unfold defects_ok. intros Hok. apply andb_true_iff in Hok as [Hret Hrows].
  rewrite (is_arrow_value np cv cnt Hrows).
  unfold defects_returned in Hret.
  destruct (length (convexHull cv cnt) <? 3)%nat; eauto.
  destruct (convexityDefects cv cnt (convexHull cv cnt)) as [[ds | ] | ];
    eauto; discriminate.
Qed.

(** C1. The angle the loop computes for a defect is the law-of-cosines angle
    at the farthest point, arccos((b^2 + c^2 - a^2) / (2bc)) in degrees with
    a = |start - end|, b = |start - far|, c = |end - far|.  On a contour
    whose reported defect rows address its points, [is_arrow] returns True
    exactly when the hull has at least 3 points, [convexityDefects] returns
    a non-empty set of defects and at least two of them have such an angle
    of at most 90 degrees; it returns False exactly when the hull has fewer
    than 3 points, or no defect is returned, or at most one defect is that
    sharp; it raises exactly when [convexityDefects] raises.  The loop
    returns True as soon as it has seen the second sharp defect, whatever
    follows, and returns False when it runs out of defects with at most one
    sharp one. *)
Theorem is_arrow_two_sharp_defects (np : Numpy) (cv : OpenCV) (cnt : contour) :
  rows_readable cv cnt = true ->
  (forall d start end_ far,
      defect_points cnt d = Ok (start, end_, far) ->
      defect_angle np cnt d
      = Ok (law_of_cosines_degrees np
              (side start end_) (side start far) (side end_ far)))
  /\ (is_arrow np cv cnt = Ok true <->
        (3 <= length (convexHull cv cnt))%nat /\
        exists ds,
          convexityDefects cv cnt (convexHull cv cnt) = Returns (Some ds) /\
          ds <> [] /\ (2 <= count_sharp_by_law np cnt ds)%nat)
  /\ (is_arrow np cv cnt = Ok false <->
        (length (convexHull cv cnt) < 3)%nat \/
        ((3 <= length (convexHull cv cnt))%nat /\
         (convexityDefects cv cnt (convexHull cv cnt) = Returns None \/
          exists ds,
            convexityDefects cv cnt (convexHull cv cnt) = Returns (Some ds) /\
            (count_sharp_by_law np cnt ds <= 1)%nat)))
  /\ (forall e,
        is_arrow np cv cnt = Raise e <->
        (3 <= length (convexHull cv cnt))%nat /\
        convexityDefects cv cnt (convexHull cv cnt) = Throws /\
        e = CvError)
  /\ (forall pre rest,
        forallb (defect_ok cnt) pre = true ->
        (2 <= count_sharp_by_law np cnt pre)%nat ->
        defects_loop np cnt (pre ++ rest) 0 = Ok true)
  /\ (forall ds,
        forallb (defect_ok cnt) ds = true ->
        (count_sharp_by_law np cnt ds <= 1)%nat ->
        defects_loop np cnt ds 0 = Ok false).
Proof.
  intros Hok. rewrite (is_arrow_value np cv cnt Hok).
  split; [ | split; [ | split; [ | split; [ | split]]]].
  - intros d start end_ far. apply defect_angle_by_law.
  - destruct (Nat.ltb_spec (length (convexHull cv cnt)) 3) as [Hlt | Hge].
    { split; [discriminate | intros [H _]; lia]. }
    destruct (convexityDefects cv cnt (convexHull cv cnt)) as [[ds | ] | ].
    + split.
      * intros H. injection H as H. apply Nat.ltb_lt in H.
        split; [exact Hge | ]. exists ds.
        rewrite count_sharp_by_law_eq. repeat split; auto.
        intros ->. cbn in H. lia.
      * intros (_ & ds' & E & _ & H2). injection E as <-.
        rewrite count_sharp_by_law_eq in H2.
        f_equal. apply Nat.ltb_lt. lia.
    + split; [discriminate | intros (_ & ds' & E & _); discriminate].
    + split; [discriminate | intros (_ & ds' & E & _); discriminate].
  - destruct (Nat.ltb_spec (length (convexHull cv cnt)) 3) as [Hlt | Hge].
    { split; auto. }
    destruct (convexityDefects cv cnt (convexHull cv cnt)) as [[ds | ] | ].
    + split.
      * intros H. injection H as H. apply Nat.ltb_ge in H.
        right. split; [exact Hge | ]. right. exists ds.
        rewrite count_sharp_by_law_eq. auto.
      * intros [H | (_ & [E | (ds' & E & H1)])]; try lia; try discriminate.
        injection E as <-. rewrite count_sharp_by_law_eq in H1.
        f_equal. apply Nat.ltb_ge. lia.
    + split; auto.
    + split; [discriminate | ].
      intros [H | (_ & [E | (ds' & E & _)])]; try lia; discriminate.
  - intros e.
    destruct (Nat.ltb_spec (length (convexHull cv cnt)) 3) as [Hlt | Hge].
    { split; [discriminate | intros [H _]; lia]. }
    destruct (convexityDefects cv cnt (convexHull cv cnt)) as [[ds | ] | ].
    + split; [discriminate | intros (_ & E & _); discriminate].
    + split; [discriminate | intros (_ & E & _); discriminate].
    + split.
      * intros H. injection H as <-. auto.
      * intros (_ & _ & ->). reflexivity.
  - intros pre rest Hpre H2. rewrite count_sharp_by_law_eq in H2.
    apply defects_loop_short_circuit; auto; lia.
  - intros ds Hds H1. rewrite count_sharp_by_law_eq in H1.
    rewrite (defects_loop_count np cnt ds Hds 0) by lia.
    f_equal. apply Nat.ltb_ge. cbn. lia.
Qed.

(** The arrow outline has two barb notches, both sharp. *)
Lemma is_arrow_two_sharp_defects_witness :
  rows_readable Sketch.cv Sketch.arrow = true /\
  is_arrow Sketch.np Sketch.cv Sketch.arrow = Ok true.
Proof.
  split.
  - reflexivity.
  - apply (is_arrow_two_sharp_defects Sketch.np Sketch.cv Sketch.arrow).
    + reflexivity.
    + split; [cbn; lia | ].
      exists [(0, 2, 1, 0); (4, 6, 5, 0)]%Z.
      split; [reflexivity | ]. split; [discriminate | ].
      apply Nat.leb_le. reflexivity.
Defined.

(** The stand-in [acos] obeys the domain law. *)
Lemma acos_chord_domain : acos_domain_law Sketch.np.
Proof.
  intros x H. cbn. unfold Sketch.acos_chord.
  unfold in_acos_domain in H. rewrite H. reflexivity.
Qed.

(** Two coinciding points are at distance zero. *)
Lemma norm_coincident (p : point) : is_zero (norm p p) = true.
Proof.
  unfold norm. rewrite !Z.sub_diag. reflexivity.
Qed.

(** The angle on a zero-length edge is a NaN. *)
Lemma angle_zero_edge (np : Numpy) (start end_ far : point) :
  acos_domain_law np ->
  is_zero (norm start far) = true \/ is_zero (norm end_ far) = true ->
  is_nan (angle np start end_ far) = true.
Proof.
  intros Hacos Hzero. unfold angle.
  apply nan_div, nan_mul, Hacos. unfold cosine.
  apply div_zero_outside.
  destruct Hzero as [Hb | Hc].
  - destruct (mul_zero_r 2 (norm start far) Hb) as [H | H].
    + apply mul_zero_l. exact H.
    + right. apply nan_mul. exact H.
  - apply mul_zero_r. exact Hc.
Qed.

(** C2. A defect with a zero-length edge [b = 0] or [c = 0] raises nothing:
    its quotient is an infinity or a NaN, its angle is a NaN, the comparison
    [angle <= 90] is false, so the defect is not counted and the loop goes on
    with the remaining defects and the same count. *)
Theorem zero_edge_defect_not_sharp (np : Numpy) (cnt : contour)
        (s e f depth : Z) (start end_ far : point) :
  acos_domain_law np ->
  getitem cnt s = Ok start ->
  getitem cnt e = Ok end_ ->
  getitem cnt f = Ok far ->
  is_zero (norm start far) = true \/ is_zero (norm end_ far) = true ->
  (exists theta,
      defect_angle np cnt (s, e, f, depth) = Ok theta /\
      is_nan theta = true /\ (theta <=? 90)%float = false)
  /\ is_sharp np cnt (s, e, f, depth) = false
  /\ (forall rest,
        count_sharp np cnt ((s, e, f, depth) :: rest) = count_sharp np cnt rest)
  /\ (forall rest count,
        (count <= 1)%nat ->
        defects_loop np cnt ((s, e, f, depth) :: rest) count =
        defects_loop np cnt rest count).
Proof.
  intros Hacos Es Ee Ef Hzero.
  pose proof (angle_zero_edge np start end_ far Hacos Hzero) as Hnan.
  assert (Eang : defect_angle np cnt (s, e, f, depth)
                 = Ok (angle np start end_ far)).
  { unfold defect_angle, defect_points. rewrite Es, Ee, Ef. reflexivity. }
  assert (Hsharp : is_sharp np cnt (s, e, f, depth) = false).
  { unfold is_sharp. rewrite Eang. apply nan_leb, Hnan. }
  repeat split.
  - exists (angle np start end_ far). repeat split; auto. apply nan_leb, Hnan.
  - exact Hsharp.
  - intros rest. rewrite count_sharp_cons, Hsharp. reflexivity.
  - intros rest count Hc. cbn [defects_loop]. rewrite Eang. cbn [Py.bind].
    rewrite (nan_leb _ 90%float Hnan). cbv zeta.
    destruct (Nat.ltb_spec 1 count); [lia | reflexivity].
Qed.

(** A contour that repeats its first point: the defect (0, 2, 1) has its
    farthest point on its start point. *)
Lemma zero_edge_defect_not_sharp_witness :
  is_sharp Sketch.np [(0, 0); (0, 0); (5, 0); (5, 5)]%Z (0, 2, 1, 0)%Z = false.
Proof.
  apply (zero_edge_defect_not_sharp Sketch.np [(0, 0); (0, 0); (5, 0); (5, 5)]%Z
           0 2 1 0 (0, 0)%Z (5, 0)%Z (0, 0)%Z).
  - exact acos_chord_domain.
  - reflexivity.
  - reflexivity.
  - reflexivity.
  - left. reflexivity.
Defined.

(** ** The bounding rectangle *)

Lemma fold_min_le (l : list Z) (a : Z) :
  (fold_left Z.min l a <= a)%Z /\
  forall z, In z l -> (fold_left Z.min l a <= z)%Z.
Proof.
  revert a. induction l as [ | x l IH]; intros a; cbn.
  - split; [lia | contradiction].
  - destruct (IH (Z.min a x)) as [H1 H2]. split; [lia | ].
    intros z [<- | Hz]; [lia | auto].
Qed.

Lemma fold_max_ge (l : list Z) (a : Z) :
  (a <= fold_left Z.max l a)%Z /\
  forall z, In z l -> (z <= fold_left Z.max l a)%Z.
Proof.
  revert a. induction l as [ | x l IH]; intros a; cbn.
  - split; [lia | contradiction].
  - destruct (IH (Z.max a x)) as [H1 H2]. split; [lia | ].
    intros z [<- | Hz]; [lia | auto].
Qed.

(** The rectangle of a non-empty point set has a positive extent and holds
    every point. *)
Lemma boundingRect_spec (pts : contour) :
  pts <> [] ->
  forall x y w h, boundingRect pts = (x, y, w, h) ->
  (0 < w)%Z /\ (0 < h)%Z /\
  forall p, In p pts ->
    (x <= fst p < x + w)%Z /\ (y <= snd p < y + h)%Z.
Proof.
  destruct pts as [ | p0 rest]; [congruence | ]. intros _ x y w h E.
  cbn in E. injection E as <- <- <- <-.
  destruct (fold_min_le (map fst rest) (fst p0)) as [X1 X2].
  destruct (fold_max_ge (map fst rest) (fst p0)) as [X3 X4].
  destruct (fold_min_le (map snd rest) (snd p0)) as [Y1 Y2].
  destruct (fold_max_ge (map snd rest) (snd p0)) as [Y3 Y4].
  repeat split; try lia.
  all: destruct H as [<- | Hp]; try lia.
  - apply X2, in_map, Hp.
  - specialize (X4 _ (in_map fst _ _ Hp)). lia.
  - apply Y2, in_map, Hp.
  - specialize (Y4 _ (in_map snd _ _ Hp)). lia.
Qed.

(** ** The dispatch on the vertex count *)

Lemma classify_four (np : Numpy) (cv : OpenCV) (approx c : contour) :
  length approx = 4%nat ->
  classify np cv approx c =
  Ok (if in_square_band (aspect_ratio approx)
      then "Square"%string else "Rectangle"%string).
Proof.
  intros H4. unfold classify, aspect_ratio, in_square_band. rewrite H4. cbn [Nat.eqb].
  assert (Hne : approx <> []) by (intros ->; discriminate).
  destruct (boundingRect approx) as [[[x y] w] h] eqn:E.
  destruct (boundingRect_spec approx Hne x y w h E) as (_ & Hh & _).
  unfold int_div_float. destruct (Z.eqb_spec h 0); [lia | ]. cbn [Py.bind].
  destruct (_ && _); reflexivity.
Qed.

(** C3. With exactly 4 vertices the label is decided by the aspect ratio
    [w / h] of the bounding rectangle: "Square" exactly when
    [0.95 <= ratio <= 1.05], both ends included, and "Rectangle" otherwise. *)
Theorem four_vertices_square_or_rectangle (np : Numpy) (cv : OpenCV) (approx c : contour) :
  length approx = 4%nat ->
  (classify np cv approx c = Ok "Square"%string <->
     (0.95 <=? aspect_ratio approx)%float = true /\
     (aspect_ratio approx <=? 1.05)%float = true)
  /\ (classify np cv approx c = Ok "Rectangle"%string <->
        ~ ((0.95 <=? aspect_ratio approx)%float = true /\
           (aspect_ratio approx <=? 1.05)%float = true))
  /\ (forall x y w h, boundingRect approx = (x, y, w, h) ->
        aspect_ratio approx = (float_of_int w / float_of_int h)%float /\
        forall p, In p approx ->
          (x <= fst p < x + w)%Z /\ (y <= snd p < y + h)%Z).
Proof.
  intros H4. rewrite (classify_four np cv approx c H4).
  unfold in_square_band. rewrite <- andb_true_iff.
  split; [ | split].
  - destruct (_ && _); split; intros H; try reflexivity; discriminate.
  - destruct (_ && _); split; intros H; try reflexivity; try discriminate.
    exfalso. apply H. reflexivity.
  - intros x y w h E. split.
    + unfold aspect_ratio. rewrite E. reflexivity.
    + intros p Hp.
      assert (Hne : approx <> []) by (intros ->; discriminate).
      destruct (boundingRect_spec approx Hne x y w h E) as (_ & _ & Hin).
      exact (Hin p Hp).
Qed.

(** A square of side 100 pixels. *)
Lemma four_vertices_square_or_rectangle_witness :
  classify Sketch.np Sketch.cv Sketch.square Sketch.square = Ok "Square"%string.
Proof.
  apply (four_vertices_square_or_rectangle Sketch.np Sketch.cv
           Sketch.square Sketch.square).
  - reflexivity.
  - split; reflexivity.
Defined.

(** Both ends of the band belong to it; a figure twice as wide as high does
    not. *)
Example square_band_ends :
  in_square_band (float_of_int 95 / float_of_int 100) = true /\
  in_square_band (float_of_int 105 / float_of_int 100) = true /\
  in_square_band (float_of_int 94 / float_of_int 100) = false /\
  in_square_band (float_of_int 106 / float_of_int 100) = false /\
  in_square_band (float_of_int 200 / float_of_int 100) = false.
Proof. repeat split; reflexivity. Qed.

(** C4. With more than 4 vertices the label comes from [is_arrow] applied to
    the contour [c], not to the polygon: "Arrow" when it returns True,
    "Circle" when it returns False; the polygon matters through its vertex
    count only. *)
Theorem many_vertices_arrow_or_circle (np : Numpy) (cv : OpenCV) (approx c : contour) :
  (4 < length approx)%nat ->
  classify np cv approx c =
    match is_arrow np cv c with
    | Ok true => Ok "Arrow"%string
    | Ok false => Ok "Circle"%string
    | Raise e => Raise e
    end
  /\ (forall approx', (4 < length approx')%nat ->
        classify np cv approx' c = classify np cv approx c).
Proof.
  assert (H : forall a, (4 < length a)%nat ->
            classify np cv a c =
            match is_arrow np cv c with
            | Ok true => Ok "Arrow"%string
            | Ok false => Ok "Circle"%string
            | Raise e => Raise e
            end).
  { intros a Ha. unfold classify.
    destruct (Nat.eqb_spec (length a) 3); [lia | ].
    destruct (Nat.eqb_spec (length a) 4); [lia | ].
    destruct (Nat.ltb_spec 4 (length a)); [ | lia].
    destruct (is_arrow np cv c) as [[ | ] | e]; reflexivity. }
  intros H4. split.
  - apply H, H4.
  - intros approx' H4'. rewrite (H _ H4), (H _ H4'). reflexivity.
Qed.

(** The octagon stands for the polygon, the arrow outline is the contour. *)
Lemma many_vertices_arrow_or_circle_witness :
  classify Sketch.np Sketch.cv Sketch.octagon Sketch.arrow = Ok "Arrow"%string.
Proof.
  refine (eq_trans
            (proj1 (many_vertices_arrow_or_circle Sketch.np Sketch.cv
                      Sketch.octagon Sketch.arrow _)) _).
  - cbn. lia.
  - reflexivity.
Defined.

(** C5. Exactly 3 vertices give "Triangle"; fewer than 3 give
    "Unknown shape". *)
Theorem three_vertices_or_fewer (np : Numpy) (cv : OpenCV) (approx c : contour) :
  (length approx <= 3)%nat ->
  classify np cv approx c =
  Ok (if (length approx =? 3)%nat
      then "Triangle"%string else "Unknown shape"%string).
Proof.
  intros H3. unfold classify.
  destruct (Nat.eqb_spec (length approx) 3); [reflexivity | ].
  destruct (Nat.eqb_spec (length approx) 4); [lia | ].
  destruct (Nat.ltb_spec 4 (length approx)); [lia | reflexivity].
Qed.

(** A polygon that collapsed to a segment. *)
Lemma three_vertices_or_fewer_witness :
  classify Sketch.np Sketch.cv [(0, 0); (9, 9)]%Z Sketch.octagon
  = Ok "Unknown shape"%string.
Proof.
  apply (three_vertices_or_fewer Sketch.np Sketch.cv [(0, 0); (9, 9)]%Z
           Sketch.octagon).
  cbn. lia.
Defined.

(** C10. The bounding rectangle of a non-empty polygon has a height of at
    least 1, so [w / float(h)] does not raise ZeroDivisionError and a polygon
    of 4 vertices always gets one of the two labels. *)
Theorem bounding_height_positive (np : Numpy) (cv : OpenCV) (approx c : contour) :
  approx <> [] ->
  (0 < snd (boundingRect approx))%Z
  /\ int_div_float (snd (fst (boundingRect approx))) (snd (boundingRect approx))
     = Ok (aspect_ratio approx)
  /\ (length approx = 4%nat ->
      classify np cv approx c = Ok "Square"%string \/
      classify np cv approx c = Ok "Rectangle"%string).
Proof.
  intros Hne.
  destruct (boundingRect approx) as [[[x y] w] h] eqn:E.
  destruct (boundingRect_spec approx Hne x y w h E) as (_ & Hh & _).
  cbn [fst snd]. repeat split.
  - exact Hh.
  - unfold int_div_float, aspect_ratio. rewrite E.
    destruct (Z.eqb_spec h 0); [lia | reflexivity].
  - intros H4. rewrite (classify_four np cv approx c H4).
    destruct (in_square_band _); auto.
Qed.

(** Four points on one horizontal line: the height is 1, not 0. *)
Lemma bounding_height_positive_witness :
  (0 < snd (boundingRect [(0, 7); (10, 7); (20, 7); (30, 7)]%Z))%Z.
Proof.
  apply (bounding_height_positive Sketch.np Sketch.cv
           [(0, 7); (10, 7); (20, 7); (30, 7)]%Z []).
  discriminate.
Defined.

(** ** The contour that is classified *)

Lemma max_from_In {A : Type} (key : A -> float) (l : list A) :
  forall best, In (Py.max_from key best l) (best :: l).
Proof.
  induction l as [ | x l IH]; intros best; cbn [Py.max_from].
  - left. reflexivity.
  - destruct (key best <? key x)%float.
    + right. apply IH.
    + destruct (IH best) as [H | H]; [left | right; right]; assumption.
Qed.

(** The scan ends on an item whose key no other key exceeds. *)
Lemma max_from_greatest {A : Type} (key : A -> float) (l : list A) :
  forall best,
  forallb (fun x => negb (is_nan (key x))) (best :: l) = true ->
  (key best <=? key (Py.max_from key best l))%float = true /\
  forall y, In y l -> (key y <=? key (Py.max_from key best l))%float = true.
Proof.
  induction l as [ | x l IH]; intros best Hnum.
  - cbn in Hnum. rewrite andb_true_r in Hnum. apply negb_true_iff in Hnum.
    split; [apply leb_refl, Hnum | contradiction].
  - cbn [forallb] in Hnum.
    apply andb_true_iff in Hnum as [Hb Hnum].
    apply andb_true_iff in Hnum as [Hx Hl].
    cbn [Py.max_from].
    destruct (key best <? key x)%float eqn:Hlt.
    + destruct (IH x) as [H1 H2].
      { cbn [forallb]. rewrite Hx, Hl. reflexivity. }
      split.
      * eapply leb_trans; [apply ltb_leb, Hlt | exact H1].
      * intros y [<- | Hy]; auto.
    + destruct (IH best) as [H1 H2].
      { cbn [forallb]. rewrite Hb, Hl. reflexivity. }
      split; [exact H1 | ].
      intros y [<- | Hy]; auto.
      eapply leb_trans; [ | exact H1].
      apply not_ltb_leb; auto; apply negb_true_iff; assumption.
Qed.

(** C8. When contours are found (none with a NaN for its area), the one
    classified is a contour of the list whose [contourArea] no other contour
    exceeds; it is simplified by
    [approxPolyDP], as a closed curve, with the tolerance
    [0.04 * arcLength(c, True)]. *)
Theorem largest_contour_simplified (np : Numpy) (cv : OpenCV) (canvas : image cv) :
  find_contours cv canvas <> [] ->
  areas_are_numbers cv (find_contours cv canvas) = true ->
  exists c,
    primary_contour cv (find_contours cv canvas) = Ok c
    /\ In c (find_contours cv canvas)
    /\ (forall c', In c' (find_contours cv canvas) ->
          (contourArea cv c' <=? contourArea cv c)%float = true)
    /\ simplify cv c = approxPolyDP cv c (0.04 * arcLength cv c true)%float true
    /\ detect_shape np cv canvas = classify np cv (simplify cv c) c.
Proof.
  intros Hne Hnum. unfold detect_shape, primary_contour.
  destruct (find_contours cv canvas) as [ | c0 rest] eqn:E; [congruence | ].
  cbn [Py.max length Nat.eqb Py.bind].
  exists (Py.max_from (contourArea cv) c0 rest).
  destruct (max_from_greatest (contourArea cv) rest c0 Hnum) as [H1 H2].
  repeat split.
  - apply max_from_In.
  - intros c' [<- | Hc']; auto.
Qed.

(** A stray triangle drawn before the arrow: the arrow has the larger area. *)
Lemma largest_contour_simplified_witness :
  exists c,
    primary_contour Sketch.cv (find_contours Sketch.cv [Sketch.speck; Sketch.arrow]) = Ok c
    /\ In c (find_contours Sketch.cv [Sketch.speck; Sketch.arrow])
    /\ (forall c', In c' (find_contours Sketch.cv [Sketch.speck; Sketch.arrow]) ->
          (contourArea Sketch.cv c' <=? contourArea Sketch.cv c)%float = true)
    /\ simplify Sketch.cv c
       = approxPolyDP Sketch.cv c (0.04 * arcLength Sketch.cv c true)%float true
    /\ detect_shape Sketch.np Sketch.cv [Sketch.speck; Sketch.arrow]
       = classify Sketch.np Sketch.cv (simplify Sketch.cv c) c.
Proof.
  apply (largest_contour_simplified Sketch.np Sketch.cv
           [Sketch.speck; Sketch.arrow]).
  - discriminate.
  - reflexivity.
Defined.

(** ** The whole pipeline *)

(** C6. When no contour is found the call returns the label
    "No shape detected"; nothing is raised. *)
Theorem no_contour_no_shape (np : Numpy) (cv : OpenCV) (canvas : image cv) :
  find_contours cv canvas = [] ->
  detect_shape np cv canvas = Ok "No shape detected"%string.
Proof.
  intros E. unfold detect_shape. rewrite E. reflexivity.
Qed.

(** The canvas nothing was drawn on. *)
Lemma no_contour_no_shape_witness :
  detect_shape Sketch.np Sketch.cv [] = Ok "No shape detected"%string.
Proof.
  apply (no_contour_no_shape Sketch.np Sketch.cv []).
  reflexivity.
Defined.

(** On a canvas without ink no contour is found, when the image operations
    keep blank images blank. *)
Lemma blank_canvas_no_shape (np : Numpy) (cv : OpenCV)
      (blank : image cv -> Prop) (canvas : image cv) :
  BlankLaws cv blank -> blank canvas ->
  find_contours cv canvas = [] /\
  detect_shape np cv canvas = Ok "No shape detected"%string.
Proof.
  intros L Hb.
  assert (E : find_contours cv canvas = []).
  { unfold find_contours.
    apply (findContours_blank cv blank L), (Canny_blank cv blank L),
      (GaussianBlur_blank cv blank L), (cvtColor_blank cv blank L), Hb. }
  split; [exact E | ]. unfold detect_shape. rewrite E. reflexivity.
Qed.

Lemma classify_total (np : Numpy) (cv : OpenCV) (approx c : contour) :
  defects_ok cv c = true ->
  exists label, classify np cv approx c = Ok label /\ In label shape_labels.
Proof.
  intros Hok.
  destruct (Nat.eq_dec (length approx) 4) as [H4 | H4].
  - rewrite (classify_four np cv approx c H4).
    destruct (in_square_band _); eexists; split; try reflexivity; cbn; tauto.
  - unfold classify.
    destruct (Nat.eqb_spec (length approx) 3).
    { eexists; split; try reflexivity; cbn; tauto. }
    destruct (Nat.eqb_spec (length approx) 4); [contradiction | ].
    destruct (4 <? length approx)%nat.
    + destruct (is_arrow_returns np cv c Hok) as [[ | ] ->];
        eexists; split; try reflexivity; cbn; tauto.
    + eexists; split; try reflexivity; cbn; tauto.
Qed.

(** When [convexityDefects] returns for the contours of the canvas and its
    rows are readable, [detect_shape] returns one of the seven labels. *)
Lemma detect_shape_labelled (np : Numpy) (cv : OpenCV) (canvas : image cv) :
  forallb (defects_ok cv) (find_contours cv canvas) = true ->
  exists label,
    detect_shape np cv canvas = Ok label /\ In label shape_labels.
Proof.
  intros Hok. unfold detect_shape, primary_contour.
  destruct (find_contours cv canvas) as [ | c0 rest] eqn:E.
  - exists "No shape detected"%string. split; [reflexivity | cbn; tauto].
  - cbn [length Nat.eqb Py.max Py.bind].
    apply classify_total.
    rewrite forallb_forall in Hok. apply Hok, max_from_In.
Qed.

(** C7. [detect_shape] does not always return a label.  The call of
    [cv2.convexityDefects] at line 207 has no handler: when the contour that
    was picked has a polygon of more than 4 vertices and a hull of at least
    3 points, and [convexityDefects] raises [cv2.error] for it, the exception
    leaves [detect_shape] and no label is returned. *)
Theorem cv_error_reaches_caller (np : Numpy) (cv : OpenCV) (canvas : image cv)
        (c : contour) :
  primary_contour cv (find_contours cv canvas) = Ok c ->
  (4 < length (simplify cv c))%nat ->
  (3 <= length (convexHull cv c))%nat ->
  convexityDefects cv c (convexHull cv c) = Throws ->
  is_arrow np cv c = Raise CvError
  /\ detect_shape np cv canvas = Raise CvError
  /\ forall label, detect_shape np cv canvas <> Ok label.
Proof.
  intros Hc H4 H3 Hthrow.
  assert (Harrow : is_arrow np cv c = Raise CvError).
  { unfold is_arrow.
    destruct (Nat.ltb_spec (length (convexHull cv c)) 3); [lia | ].
    rewrite Hthrow. reflexivity. }
  assert (Hshape : detect_shape np cv canvas = Raise CvError).
  { unfold detect_shape.
    destruct (find_contours cv canvas) as [ | c0 rest]; [discriminate | ].
    cbn [length Nat.eqb]. rewrite Hc. cbn [Py.bind]. unfold classify.
    destruct (Nat.eqb_spec (length (simplify cv c)) 3); [lia | ].
    destruct (Nat.eqb_spec (length (simplify cv c)) 4); [lia | ].
    destruct (Nat.ltb_spec 4 (length (simplify cv c))); [ | lia].
    rewrite Harrow. reflexivity. }
  repeat split; auto.
  intros label H. rewrite Hshape in H. discriminate.
Qed.

(** A figure of eight, which crosses itself. *)
Lemma cv_error_reaches_caller_witness :
  detect_shape Sketch.np Sketch.cv [Sketch.scribble] = Raise CvError.
Proof.
  apply (cv_error_reaches_caller Sketch.np Sketch.cv [Sketch.scribble]
           Sketch.scribble).
  - reflexivity.
  - cbn. lia.
  - cbn. lia.
  - reflexivity.
Defined.

(** The mouse callback changes the module variables. *)
Example draw_changes_globals (cv : OpenCV) line (g : Globals cv) :
  drawing cv g = false ->
  snd (draw cv line EVENT_LBUTTONDOWN 3 4 g) <> g.
Proof.
  intros H E. apply (f_equal (drawing cv)) in E. cbn in E. congruence.
Qed.

(** ** The mouse callback *)

Lemma draw_frame (cv : OpenCV) line (event : mouse_event) (x y : Z)
      (g : Globals cv) :
  mode cv (snd (draw cv line event x y g)) = mode cv g
  /\ (canvas cv (snd (draw cv line event x y g)) = None <-> canvas cv g = None).
Proof.
  destruct g as [dr md gx gy [img | ]], event; unfold draw, stroke; cbn;
    try destruct dr; try destruct md; cbn; split; try reflexivity;
    split; intros H; try discriminate; reflexivity.
Qed.

Lemma draw_defined (cv : OpenCV) line (event : mouse_event) (x y : Z)
      (g : Globals cv) :
  canvas cv g <> None -> fst (draw cv line event x y g) = Ok tt.
Proof.
  destruct g as [dr md gx gy [img | ]], event; unfold draw, stroke; cbn;
    try destruct dr; cbn; congruence.
Qed.

(** No sequence of mouse events changes [mode], and none defines or
    undefines [canvas], whether the callback returns or raises; on a defined
    canvas it never raises. *)
Lemma deliver_frame (cv : OpenCV) line
        (events : list (mouse_event * Z * Z)) (g : Globals cv) :
  mode cv (snd (deliver cv line events g)) = mode cv g
  /\ (canvas cv (snd (deliver cv line events g)) = None <-> canvas cv g = None)
  /\ (canvas cv g <> None -> fst (deliver cv line events g) = Ok tt).
Proof.
  revert g. induction events as [ | [[event x] y] events IH]; intros g.
  - cbn. repeat split; auto.
  - cbn [deliver].
    destruct (draw_frame cv line event x y g) as [Hm Hc].
    pose proof (draw_defined cv line event x y g) as Hd.
    destruct (draw cv line event x y g) as [[u | e] g'] eqn:E; cbn [fst snd] in *.
    + destruct (IH g') as (IHm & IHc & IHd). repeat split.
      * congruence.
      * intros H. apply Hc, IHc, H.
      * intros H. apply IHc, Hc, H.
      * intros H. apply IHd. intros H'. apply H, Hc, H'.
    + repeat split; auto; apply Hc.
Qed.

(** [draw] raises exactly when a stroke is due while [canvas] is not
    defined, that is on a button release, or on a move with the button down;
    what it raises is NameError. *)
Theorem draw_raises_iff (cv : OpenCV) line (event : mouse_event) (x y : Z)
        (g : Globals cv) :
  (fst (draw cv line event x y g) = Raise NameError <->
     canvas cv g = None /\
     (event = EVENT_LBUTTONUP \/
      (event = EVENT_MOUSEMOVE /\ drawing cv g = true)))
  /\ (fst (draw cv line event x y g) = Ok tt \/
      fst (draw cv line event x y g) = Raise NameError).
Proof.
  destruct g as [dr md gx gy [img | ]], event; unfold draw, stroke; cbn;
    try destruct dr; cbn; split; auto; split;
    try discriminate; try (intros [H _]; discriminate); auto;
    intros [_ [H | [H1 H2]]]; discriminate.
Qed.

Lemma last_cons {A : Type} (l : list A) (a d : A) :
  last (a :: l) d = last l a.
Proof.
  revert a d. induction l as [ | b l IH]; intros a d; [reflexivity | ].
  change (last (a :: b :: l) d) with (last (b :: l) d).
  rewrite (IH b d), (IH b a). reflexivity.
Qed.

Lemma strokes_app {img : Type} (line : img -> point -> point -> Z * Z * Z -> Z -> img)
      (m : bool) (l1 l2 : list point) :
  forall picture start,
  strokes line m picture start (l1 ++ l2)
  = strokes line m (strokes line m picture start l1) (last l1 start) l2.
Proof.
  induction l1 as [ | p l1 IH]; intros picture start; [reflexivity | ].
  cbn [app strokes]. rewrite IH, last_cons. reflexivity.
Qed.

(** Moves with the button down draw the path, segment after segment. *)
Lemma deliver_moves (cv : OpenCV) line (md : bool) (path : list point)
      (rest : list (mouse_event * Z * Z)) :
  forall gx gy img,
  deliver cv line (moves path ++ rest)
    {| drawing := true; mode := md; ix := gx; iy := gy; canvas := Some img |}
  = deliver cv line rest
      {| drawing := true; mode := md;
         ix := fst (last path (gx, gy)); iy := snd (last path (gx, gy));
         canvas := Some (strokes (line : image cv -> _) md img (gx, gy) path) |}.
Proof.
  induction path as [ | [px py] path IH]; intros gx gy img; [reflexivity | ].
  rewrite last_cons.
  cbn [moves map app deliver fst snd strokes]. unfold draw, stroke.
  cbn [drawing mode ix iy canvas].
  destruct md; cbn [pen fst snd]; apply IH.
Qed.

(** A gesture on a defined canvas, button down at [p0], moves along [path],
    button up at [q], raises nothing and draws the connected polyline from
    [p0] through [path] to [q] with the pen of the current mode; it ends with
    [drawing] false and [(ix, iy)] on the last point before the release. *)
Theorem gesture_draws_polyline (cv : OpenCV) line (g : Globals cv)
        (img : image cv) (p0 : point) (path : list point) (q : point) :
  canvas cv g = Some img ->
  deliver cv line (gesture p0 path q) g
  = (Ok tt,
     {| drawing := false; mode := mode cv g;
        ix := fst (last path p0); iy := snd (last path p0);
        canvas := Some (strokes (line : image cv -> _) (mode cv g) img p0
                          (path ++ [q])) |}).
Proof.
  destruct g as [dr md gx gy cnv], p0 as [x0 y0], q as [xq yq]. cbn.
  intros ->. rewrite deliver_moves. cbn [deliver].
  unfold draw, stroke. cbn. rewrite strokes_app. cbn.
  destruct (last path (x0, y0)) as [lx ly].
  destruct md; reflexivity.
Qed.

(** Three strokes of a triangle on an empty canvas. *)
Lemma gesture_draws_polyline_witness :
  deliver Sketch.cv Sketch.line (gesture (0, 0)%Z [(4, 0); (4, 3)]%Z (0, 0)%Z)
    (with_canvas Sketch.cv [] (initial_globals Sketch.cv))
  = (Ok tt,
     Build_Globals Sketch.cv false true 4%Z 3%Z
       (Some [[(0, 0); (4, 0)]; [(4, 0); (4, 3)]; [(4, 3); (0, 0)]]%Z)).
Proof.
  apply (gesture_draws_polyline Sketch.cv Sketch.line
           (with_canvas Sketch.cv [] (initial_globals Sketch.cv)) []
           (0, 0)%Z [(4, 0); (4, 3)]%Z (0, 0)%Z).
  reflexivity.
Defined.

(** While no button is down, events that press no button change nothing and
    raise nothing, even when [canvas] is not defined. *)
Theorem hovering_changes_nothing (cv : OpenCV) line
        (events : list (mouse_event * Z * Z)) (g : Globals cv) :
  forallb no_button events = true ->
  drawing cv g = false ->
  deliver cv line events g = (Ok tt, g).
Proof.
  induction events as [ | [[event x] y] events IH]; intros Hev Hdr;
    [reflexivity | ].
  cbn [forallb] in Hev. apply andb_true_iff in Hev as [He Hev].
  cbn [deliver]. unfold no_button in He. cbn in He.
  destruct event; try discriminate; unfold draw; try rewrite Hdr;
    apply IH; assumption.
Qed.

Lemma hovering_changes_nothing_witness :
  deliver Sketch.cv Sketch.line [(EVENT_MOUSEMOVE, 3, 4); (EVENT_OTHER, 5, 6)]%Z
    (initial_globals Sketch.cv)
  = (Ok tt, initial_globals Sketch.cv).
Proof.
  apply (hovering_changes_nothing Sketch.cv Sketch.line
           [(EVENT_MOUSEMOVE, 3, 4); (EVENT_OTHER, 5, 6)]%Z).
  - reflexivity.
  - reflexivity.
Defined.

(** ** Exceptions of the script's own making *)

Lemma getitem_raises {A : Type} (l : list A) (i : Z) (e : exn) :
  getitem l i = Raise e -> e = IndexError.
Proof.
  unfold getitem.
  destruct ((0 <=? _) && _)%Z; [ | congruence].
  destruct (nth_error _ _); congruence.
Qed.

Lemma defect_angle_raises (np : Numpy) (cnt : contour) (d : defect) (e : exn) :
  defect_angle np cnt d = Raise e -> e = IndexError.
Proof.
  destruct d as [[[s en] f] depth]. unfold defect_angle, defect_points.
  destruct (getitem cnt s) eqn:Es; cbn;
    [ | intros H; injection H as <-; eapply getitem_raises; eauto].
  destruct (getitem cnt en) eqn:Ee; cbn;
    [ | intros H; injection H as <-; eapply getitem_raises; eauto].
  destruct (getitem cnt f) eqn:Ef; cbn;
    [ | intros H; injection H as <-; eapply getitem_raises; eauto].
  discriminate.
Qed.

Lemma defects_loop_raises (np : Numpy) (cnt : contour) (ds : list defect) (e : exn) :
  forall count, defects_loop np cnt ds count = Raise e -> e = IndexError.
Proof.
  induction ds as [ | d ds IH]; intros count; cbn [defects_loop]; [discriminate | ].
  destruct (defect_angle np cnt d) as [theta | e'] eqn:E; cbn [Py.bind].
  - destruct (1 <? _)%nat; [discriminate | apply IH].
  - intros H. injection H as <-. eapply defect_angle_raises; eauto.
Qed.

(** [is_arrow] raises what [convexityDefects] raises, or IndexError on a
    row that cannot be read. *)
Lemma is_arrow_raises (np : Numpy) (cv : OpenCV) (c : contour) (e : exn) :
  is_arrow np cv c = Raise e ->
  (3 <= length (convexHull cv c))%nat
  /\ ((e = CvError /\ convexityDefects cv c (convexHull cv c) = Throws)
      \/ (e = IndexError /\
          exists ds,
            convexityDefects cv c (convexHull cv c) = Returns (Some ds)
            /\ forallb (defect_ok c) ds = false)).
Proof.
  unfold is_arrow.
  destruct (Nat.ltb_spec (length (convexHull cv c)) 3) as [Hlt | Hge];
    [discriminate | ].
  destruct (convexityDefects cv c (convexHull cv c)) as [[ds | ] | ];
    cbn [cv_call Py.bind]; intros H; try discriminate.
  - split; [exact Hge | ]. right.
    split; [eapply defects_loop_raises; eauto | ].
    exists ds. split; [reflexivity | ].
    destruct (forallb (defect_ok c) ds) eqn:Hok; [ | reflexivity].
    rewrite (defects_loop_count np c ds Hok 0) in H by lia. discriminate.
  - injection H as <-. split; [exact Hge | ]. left. split; reflexivity.
Qed.

Lemma classify_raises (np : Numpy) (cv : OpenCV) (approx c : contour) (e : exn) :
  classify np cv approx c = Raise e ->
  (4 < length approx)%nat /\ is_arrow np cv c = Raise e.
Proof.
  destruct (Nat.eq_dec (length approx) 4) as [H4 | H4].
  { rewrite (classify_four np cv approx c H4). discriminate. }
  unfold classify.
  destruct (Nat.eqb_spec (length approx) 3); [discriminate | ].
  destruct (Nat.eqb_spec (length approx) 4); [contradiction | ].
  destruct (Nat.ltb_spec 4 (length approx)) as [Hgt | Hle]; [ | discriminate].
  destruct (is_arrow np cv c) as [[ | ] | e'] eqn:E; cbn; try discriminate.
  intros Hr. injection Hr as <-. split; auto.
Qed.

(** An unreadable defect row makes the angle computation raise. *)
Lemma defect_angle_unreadable (np : Numpy) (cnt : contour) (d : defect) :
  defect_ok cnt d = false -> defect_angle np cnt d = Raise IndexError.
Proof.
  intros H. destruct (defect_angle np cnt d) as [theta | e] eqn:E.
  - exfalso. destruct d as [[[s en] f] depth].
    unfold defect_angle, defect_points in E.
    assert (Hidx : forall i p, getitem cnt i = Ok p -> index_ok cnt i = true).
    { intros i p. unfold getitem, index_ok.
      destruct (Z.ltb_spec i 0);
        destruct ((0 <=? _) && _)%Z eqn:B; try discriminate;
        intros _; apply andb_true_iff in B as [B1 B2];
        apply Z.leb_le in B1; apply Z.ltb_lt in B2;
        apply andb_true_iff; split;
        [apply Z.leb_le | apply Z.ltb_lt | apply Z.leb_le | apply Z.ltb_lt];
        lia. }
    destruct (getitem cnt s) eqn:Es; cbn in E; [ | discriminate].
    destruct (getitem cnt en) eqn:Ee; cbn in E; [ | discriminate].
    destruct (getitem cnt f) eqn:Ef; cbn in E; [ | discriminate].
    unfold defect_ok in H.
    rewrite (Hidx _ _ Es), (Hidx _ _ Ee), (Hidx _ _ Ef) in H. discriminate.
  - f_equal. eapply defect_angle_raises; eauto.
Qed.

(** When [detect_shape] raises, the exception comes out of [is_arrow]: the
    polygon has more than 4 vertices, the hull at least 3 points, and either
    [convexityDefects] raised [cv2.error], or it returned a defect row that
    addresses no point of the contour and the exception is IndexError.  The
    division [w / float(h)] and the call of [max] never raise. *)
Theorem detect_shape_raises_only_in_arrow_test (np : Numpy) (cv : OpenCV)
        (canvas : image cv) (e : exn) :
  detect_shape np cv canvas = Raise e ->
  exists c,
    primary_contour cv (find_contours cv canvas) = Ok c
    /\ In c (find_contours cv canvas)
    /\ (4 < length (simplify cv c))%nat
    /\ (3 <= length (convexHull cv c))%nat
    /\ ((e = CvError /\ convexityDefects cv c (convexHull cv c) = Throws)
        \/ (e = IndexError /\
            exists ds,
              convexityDefects cv c (convexHull cv c) = Returns (Some ds)
              /\ forallb (defect_ok c) ds = false)).
Proof.
  unfold detect_shape, primary_contour.
  destruct (find_contours cv canvas) as [ | c0 rest]; [discriminate | ].
  cbn [length Nat.eqb Py.max Py.bind]. intros H.
  destruct (classify_raises np cv _ _ e H) as (H4 & Harrow).
  destruct (is_arrow_raises np cv _ e Harrow) as (H3 & Hcase).
  exists (Py.max_from (contourArea cv) c0 rest).
  repeat split; auto using max_from_In.
Qed.

(** A figure of eight: [convexityDefects] refuses it. *)
Lemma detect_shape_raises_only_in_arrow_test_witness :
  exists c,
    primary_contour Sketch.cv (find_contours Sketch.cv [Sketch.scribble]) = Ok c
    /\ In c (find_contours Sketch.cv [Sketch.scribble])
    /\ (4 < length (simplify Sketch.cv c))%nat
    /\ (3 <= length (convexHull Sketch.cv c))%nat
    /\ ((CvError = CvError
         /\ convexityDefects Sketch.cv c (convexHull Sketch.cv c) = Throws)
        \/ (CvError = IndexError /\
            exists ds,
              convexityDefects Sketch.cv c (convexHull Sketch.cv c)
              = Returns (Some ds)
              /\ forallb (defect_ok c) ds = false)).
Proof.
  apply (detect_shape_raises_only_in_arrow_test Sketch.np Sketch.cv
           [Sketch.scribble] CvError).
  reflexivity.
Defined.

(** An unreadable defect row raises IndexError when the loop reaches it, and
    goes unnoticed when two sharp defects come before it. *)
Theorem unreadable_defect_reached_or_not (np : Numpy) (cnt : contour)
        (pre : list defect) (d : defect) (rest : list defect) :
  forallb (defect_ok cnt) pre = true ->
  defect_ok cnt d = false ->
  defects_loop np cnt (pre ++ d :: rest) 0
  = if (2 <=? count_sharp np cnt pre)%nat then Ok true else Raise IndexError.
Proof.
  intros Hpre Hd.
  destruct (Nat.leb_spec 2 (count_sharp np cnt pre)) as [H2 | H2].
  - apply defects_loop_short_circuit; auto; lia.
  - assert (G : forall count, (count + count_sharp np cnt pre <= 1)%nat ->
                defects_loop np cnt (pre ++ d :: rest) count = Raise IndexError).
    { clear H2. induction pre as [ | p pre IH]; intros count Hc.
      - cbn [app defects_loop].
        rewrite (defect_angle_unreadable np cnt d Hd). reflexivity.
      - cbn [forallb] in Hpre. apply andb_true_iff in Hpre as [Hp Hpre].
        rewrite <- app_comm_cons, defects_loop_step by assumption.
        rewrite count_sharp_cons in Hc. cbv zeta.
        destruct (is_sharp np cnt p).
        + destruct (Nat.ltb_spec 1 (S count)); [lia | ]. apply IH; auto; lia.
        + destruct (Nat.ltb_spec 1 count); [lia | ]. apply IH; auto. }
    apply G. lia.
Qed.

(** On the arrow outline, a row past the last vertex after one notch. *)
Lemma unreadable_defect_reached_or_not_witness :
  defects_loop Sketch.np Sketch.arrow
    ([(0, 2, 1, 0)] ++ (0, 1, 7, 0) :: [(4, 6, 5, 0)])%Z 0
  = Raise IndexError.
Proof.
  apply (unreadable_defect_reached_or_not Sketch.np Sketch.arrow
           [(0, 2, 1, 0)%Z] (0, 1, 7, 0)%Z [(4, 6, 5, 0)%Z]).
  - reflexivity.
  - reflexivity.
Defined.

Lemma count_sharp_perm (np : Numpy) (cnt : contour) (ds ds' : list defect) :
  Permutation ds ds' -> count_sharp np cnt ds = count_sharp np cnt ds'.
Proof.
  induction 1 as [ | d l l' _ IH | a b l | l l' l'' _ IH1 _ IH2].
  - reflexivity.
  - rewrite !count_sharp_cons, IH. reflexivity.
  - rewrite !count_sharp_cons. lia.
  - congruence.
Qed.

(** The verdict of the loop does not depend on the order in which the
    defects are listed, although the loop may stop early. *)
Theorem defects_order_irrelevant (np : Numpy) (cnt : contour)
        (ds ds' : list defect) :
  forallb (defect_ok cnt) ds = true ->
  Permutation ds ds' ->
  defects_loop np cnt ds' 0 = defects_loop np cnt ds 0.
Proof.
  intros Hok Hperm.
  assert (Hok' : forallb (defect_ok cnt) ds' = true).
  { rewrite forallb_forall in *. intros d Hd.
    apply Hok. eapply Permutation_in; [ | exact Hd].
    apply Permutation_sym, Hperm. }
  rewrite (defects_loop_count np cnt ds Hok 0) by lia.
  rewrite (defects_loop_count np cnt ds' Hok' 0) by lia.
  rewrite (count_sharp_perm np cnt ds ds' Hperm). reflexivity.
Qed.

Lemma defects_order_irrelevant_witness :
  defects_loop Sketch.np Sketch.arrow [(4, 6, 5, 0); (0, 2, 1, 0)]%Z 0
  = defects_loop Sketch.np Sketch.arrow [(0, 2, 1, 0); (4, 6, 5, 0)]%Z 0.
Proof.
  apply (defects_order_irrelevant Sketch.np Sketch.arrow
           [(0, 2, 1, 0); (4, 6, 5, 0)]%Z [(4, 6, 5, 0); (0, 2, 1, 0)]%Z).
  - reflexivity.
  - apply perm_swap.
Defined.

(** ** Which contour wins *)

Section FloatOrder.

Local Open Scope float_scope.

Ltac lex_split :=
  unfold lex_compare; cbn [fst snd];
  repeat match goal with
         | |- context [(?a ?= ?b)%Z] => destruct (Z.compare_spec a b)
         | H : context [(?a ?= ?b)%Z] |- _ => destruct (Z.compare_spec a b)
         end;
  try congruence; try lia.

Lemma lex_lt_le_trans (a b c : Z * Z * Z) :
  lex_compare a b = Lt -> lex_compare b c <> Gt -> lex_compare a c = Lt.
Proof.
  destruct a as [[a1 a2] a3], b as [[b1 b2] b3], c as [[c1 c2] c3].
  lex_split.
Qed.

Lemma lex_le_lt_trans (a b c : Z * Z * Z) :
  lex_compare a b <> Gt -> lex_compare b c = Lt -> lex_compare a c = Lt.
Proof.
  destruct a as [[a1 a2] a3], b as [[b1 b2] b3], c as [[c1 c2] c3].
  lex_split.
Qed.

Lemma lex_lt_not_ge (a b : Z * Z * Z) :
  lex_compare a b = Lt -> lex_compare b a <> Gt -> False.
Proof.
  destruct a as [[a1 a2] a3], b as [[b1 b2] b3].
  lex_split.
Qed.

Lemma ltb_rank (x y : float) :
  (x <? y) = true <->
  is_nan x = false /\ is_nan y = false /\
  lex_compare (rank (Prim2SF x)) (rank (Prim2SF y)) = Lt.
Proof.
  rewrite ltb_spec. unfold SFltb. split.
  - intros H.
    destruct (is_nan x) eqn:Nx.
    { rewrite (is_nan_SF _ Nx) in H. discriminate. }
    destruct (is_nan y) eqn:Ny.
    { rewrite (is_nan_SF _ Ny) in H. destruct (Prim2SF x); discriminate. }
    rewrite SFcompare_rank in H.
    + repeat split. destruct (lex_compare _ _); congruence.
    + intros E. rewrite (SF_is_nan _ E) in Nx. discriminate.
    + intros E. rewrite (SF_is_nan _ E) in Ny. discriminate.
  - intros (Nx & Ny & H).
    rewrite SFcompare_rank.
    + rewrite H. reflexivity.
    + intros E. rewrite (SF_is_nan _ E) in Nx. discriminate.
    + intros E. rewrite (SF_is_nan _ E) in Ny. discriminate.
Qed.

Lemma ltb_leb_trans (x y z : float) :
  (x <? y) = true -> (y <=? z) = true -> (x <? z) = true.
Proof.
  rewrite !ltb_rank, leb_rank. intros (Nx & Ny & H1) (_ & Nz & H2).
  repeat split; auto. eapply lex_lt_le_trans; eauto.
Qed.

Lemma leb_ltb_trans (x y z : float) :
  (x <=? y) = true -> (y <? z) = true -> (x <? z) = true.
Proof.
  rewrite !ltb_rank, leb_rank. intros (Nx & Ny & H1) (_ & Nz & H2).
  repeat split; auto. eapply lex_le_lt_trans; eauto.
Qed.

Lemma ltb_not_leb (x y : float) :
  (x <? y) = true -> (y <=? x) = true -> False.
Proof.
  rewrite ltb_rank, leb_rank. intros (_ & _ & H1) (_ & _ & H2).
  eapply lex_lt_not_ge; eauto.
Qed.

End FloatOrder.

(** The keys of a list are numbers. *)
Lemma numbers_cons {A : Type} (key : A -> float) (x : A) (l : list A) :
  forallb (fun x => negb (is_nan (key x))) (x :: l) = true <->
  is_nan (key x) = false /\ forallb (fun x => negb (is_nan (key x))) l = true.
Proof.
  cbn [forallb]. rewrite andb_true_iff, negb_true_iff. reflexivity.
Qed.

(** The scan ends on the first item that carries the greatest key. *)
Lemma max_from_first {A : Type} (key : A -> float) (l : list A) :
  forall best,
  forallb (fun x => negb (is_nan (key x))) (best :: l) = true ->
  exists pre post,
    best :: l = pre ++ Py.max_from key best l :: post
    /\ (forall x, In x pre -> (key x <? key (Py.max_from key best l))%float = true)
    /\ (forall x, In x post -> (key x <=? key (Py.max_from key best l))%float = true).
Proof.
  induction l as [ | x l IH]; intros best Hnum.
  - exists [], []. cbn. repeat split; contradiction.
  - pose proof Hnum as Hnum'.
    apply numbers_cons in Hnum' as [Nb Hnum'].
    apply numbers_cons in Hnum' as [Nx Nl].
    cbn [Py.max_from].
    destruct (key best <? key x)%float eqn:Hlt.
    + assert (Hxl : forallb (fun x => negb (is_nan (key x))) (x :: l) = true).
      { apply numbers_cons. auto. }
      destruct (IH x Hxl) as (pre & post & E & Hpre & Hpost).
      destruct (max_from_greatest key l x Hxl) as [Hx _].
      exists (best :: pre), post. repeat split.
      * cbn. rewrite <- E. reflexivity.
      * intros y [<- | Hy]; auto.
        eapply ltb_leb_trans; eauto.
      * exact Hpost.
    + assert (Hbl : forallb (fun x => negb (is_nan (key x))) (best :: l) = true).
      { apply numbers_cons. auto. }
      assert (Hxb : (key x <=? key best)%float = true)
        by (apply not_ltb_leb; auto).
      destruct (IH best Hbl) as (pre & post & E & Hpre & Hpost).
      destruct pre as [ | b pre].
      * cbn in E. injection E as E1 E2.
        exists [], (x :: post). repeat split.
        -- cbn. rewrite <- E1, E2. reflexivity.
        -- contradiction.
        -- intros y [<- | Hy]; auto. rewrite <- E1. exact Hxb.
      * cbn in E. injection E as E1 E2. subst b.
        exists (best :: x :: pre), post. repeat split.
        -- cbn. do 2 f_equal. exact E2.
        -- intros y [<- | [<- | Hy]].
           ++ apply Hpre. left. reflexivity.
           ++ eapply leb_ltb_trans; [exact Hxb | ].
              apply Hpre. left. reflexivity.
           ++ apply Hpre. right. exact Hy.
        -- exact Hpost.
Qed.

(** A start that is not above [n] and stays below the outcome can be
    replaced by [n]. *)
Lemma max_from_restart {A : Type} (key : A -> float) (l : list A) :
  forall best n,
  forallb (fun x => negb (is_nan (key x))) (n :: best :: l) = true ->
  (key best <=? key n)%float = true ->
  (key n <? key (Py.max_from key best l))%float = true ->
  Py.max_from key n l = Py.max_from key best l.
Proof.
  induction l as [ | x l IH]; intros best n Hnum Hbn Hn; cbn [Py.max_from] in *.
  - exfalso. eapply ltb_not_leb; eauto.
  - apply numbers_cons in Hnum as [Nn Hnum].
    apply numbers_cons in Hnum as [Nb Hnum].
    apply numbers_cons in Hnum as [Nx Nl].
    destruct (key n <? key x)%float eqn:Hnx.
    + rewrite (leb_ltb_trans _ _ _ Hbn Hnx). reflexivity.
    + assert (Hxn : (key x <=? key n)%float = true) by (apply not_ltb_leb; auto).
      destruct (key best <? key x)%float eqn:Hbx.
      * apply IH; auto. repeat (apply numbers_cons; split; auto).
      * apply IH; auto. repeat (apply numbers_cons; split; auto).
Qed.

(** A smaller item put anywhere behind the head does not change the
    outcome of the scan. *)
Lemma max_from_insert {A : Type} (key : A -> float) (n : A) (l1 l2 : list A) :
  forall best,
  forallb (fun x => negb (is_nan (key x))) (n :: best :: l1 ++ l2) = true ->
  (key n <? key (Py.max_from key best (l1 ++ l2)))%float = true ->
  Py.max_from key best (l1 ++ n :: l2) = Py.max_from key best (l1 ++ l2).
Proof.
  induction l1 as [ | x l1 IH]; intros best Hnum Hn.
  - cbn [app] in *. cbn [Py.max_from].
    destruct (key best <? key n)%float eqn:Hbn; [ | reflexivity].
    apply max_from_restart; auto. apply ltb_leb, Hbn.
  - cbn [app Py.max_from] in *.
    apply numbers_cons in Hnum as [Nn Hnum].
    apply numbers_cons in Hnum as [Nb Hnum].
    apply numbers_cons in Hnum as [Nx Nl].
    destruct (key best <? key x)%float.
    + apply IH; auto. repeat (apply numbers_cons; split; auto).
    + apply IH; auto. repeat (apply numbers_cons; split; auto).
Qed.

(** Among contours of equal greatest area the first one found is the one
    classified: every contour before it is strictly smaller, none after it is
    larger. *)
Theorem first_largest_contour_wins (cv : OpenCV) (contours : list contour) :
  contours <> [] ->
  areas_are_numbers cv contours = true ->
  exists c pre post,
    primary_contour cv contours = Ok c
    /\ contours = pre ++ c :: post
    /\ (forall x, In x pre -> (contourArea cv x <? contourArea cv c)%float = true)
    /\ (forall x, In x post -> (contourArea cv x <=? contourArea cv c)%float = true).
Proof.
  destruct contours as [ | c0 rest]; [congruence | ]. intros _ Hnum.
  destruct (max_from_first (contourArea cv) rest c0 Hnum)
    as (pre & post & E & Hpre & Hpost).
  exists (Py.max_from (contourArea cv) c0 rest), pre, post.
  repeat split; auto.
Qed.

(** Two copies of the arrow outline: the first copy is picked. *)
Lemma first_largest_contour_wins_witness :
  exists c pre post,
    primary_contour Sketch.cv [Sketch.speck; Sketch.arrow; Sketch.arrow] = Ok c
    /\ [Sketch.speck; Sketch.arrow; Sketch.arrow] = pre ++ c :: post
    /\ (forall x, In x pre ->
          (contourArea Sketch.cv x <? contourArea Sketch.cv c)%float = true)
    /\ (forall x, In x post ->
          (contourArea Sketch.cv x <=? contourArea Sketch.cv c)%float = true).
Proof.
  apply (first_largest_contour_wins Sketch.cv
           [Sketch.speck; Sketch.arrow; Sketch.arrow]).
  - discriminate.
  - reflexivity.
Defined.

Lemma numbers_insert {A : Type} (key : A -> float) (n : A) (l1 l2 : list A) :
  forallb (fun x => negb (is_nan (key x))) (l1 ++ n :: l2) = true ->
  forallb (fun x => negb (is_nan (key x))) (n :: l1 ++ l2) = true.
Proof.
  rewrite forallb_app. cbn [forallb]. rewrite forallb_app.
  rewrite !andb_true_iff. tauto.
Qed.

(** A stray contour of strictly smaller area than the one classified,
    wherever [findContours] lists it, changes neither the contour that is
    picked nor the label. *)
Theorem smaller_contour_ignored (np : Numpy) (cv : OpenCV)
        (canvas canvas' : image cv) (l1 l2 : list contour) (n c : contour) :
  find_contours cv canvas = l1 ++ l2 ->
  find_contours cv canvas' = l1 ++ n :: l2 ->
  areas_are_numbers cv (l1 ++ n :: l2) = true ->
  primary_contour cv (l1 ++ l2) = Ok c ->
  (contourArea cv n <? contourArea cv c)%float = true ->
  primary_contour cv (l1 ++ n :: l2) = Ok c
  /\ detect_shape np cv canvas' = detect_shape np cv canvas.
Proof.
  intros E E' Hnum Hc Hn.
  apply numbers_insert in Hnum.
  assert (P : primary_contour cv (l1 ++ n :: l2) = Ok c).
  { unfold primary_contour in *. destruct l1 as [ | b l1].
    - destruct l2 as [ | c0 l2]; [discriminate | ].
      cbn [app Py.max Py.max_from] in *. injection Hc as <-. f_equal.
      destruct (contourArea cv n <? contourArea cv c0)%float eqn:Hlt;
        [reflexivity | ].
      apply (max_from_restart (contourArea cv) l2 c0 n); auto.
      apply numbers_cons in Hnum as [Nn Hnum].
      apply numbers_cons in Hnum as [Nc _].
      apply not_ltb_leb; auto.
    - cbn [app Py.max] in *. injection Hc as <-. f_equal.
      apply max_from_insert; auto. }
  split; [exact P | ].
  unfold detect_shape. rewrite E, E'.
  assert (L : forall l : list contour, (length l =? 0)%nat = false <-> l <> []).
  { intros [ | x l]; cbn; split; congruence. }
  assert (L1 : (length (l1 ++ l2) =? 0)%nat = false).
  { apply L. intros H. rewrite H in Hc. discriminate. }
  assert (L2 : (length (l1 ++ n :: l2) =? 0)%nat = false).
  { apply L. intros H. apply app_eq_nil in H as [_ H]. discriminate. }
  rewrite L1, L2, P, Hc. reflexivity.
Qed.

(** The arrow outline with and without a speck drawn before it. *)
Lemma smaller_contour_ignored_witness :
  primary_contour Sketch.cv ([] ++ Sketch.speck :: [Sketch.arrow]) = Ok Sketch.arrow
  /\ detect_shape Sketch.np Sketch.cv [Sketch.speck; Sketch.arrow]
     = detect_shape Sketch.np Sketch.cv [Sketch.arrow].
Proof.
  apply (smaller_contour_ignored Sketch.np Sketch.cv
           [Sketch.arrow] [Sketch.speck; Sketch.arrow]
           [] [Sketch.arrow] Sketch.speck Sketch.arrow).
  - reflexivity.
  - reflexivity.
  - reflexivity.
  - reflexivity.
  - reflexivity.
Defined.

(** The label tells the vertex count of the polygon: "Triangle" means 3,
    "Unknown shape" fewer than 3, "Square" and "Rectangle" 4, "Arrow" and
    "Circle" more than 4; [classify] never answers "No shape detected". *)
Theorem label_tells_vertex_count (np : Numpy) (cv : OpenCV) (approx c : contour)
        (label : string) :
  classify np cv approx c = Ok label ->
  (label = "Triangle"%string <-> length approx = 3%nat)
  /\ (label = "Unknown shape"%string <-> (length approx < 3)%nat)
  /\ (label = "Square"%string \/ label = "Rectangle"%string
      <-> length approx = 4%nat)
  /\ (label = "Arrow"%string \/ label = "Circle"%string
      <-> (4 < length approx)%nat)
  /\ label <> "No shape detected"%string.
Proof.
  destruct (Nat.eq_dec (length approx) 4) as [H4 | H4].
  { rewrite (classify_four np cv approx c H4).
    destruct (in_square_band _); intros H; injection H as <-;
      repeat split; intros; try discriminate; try lia; auto;
      destruct H as [H | H]; discriminate. }
  unfold classify.
  destruct (Nat.eqb_spec (length approx) 3) as [H3 | H3].
  { intros H; injection H as <-;
      repeat split; intros; try discriminate; try lia; auto;
      destruct H as [H | H]; discriminate. }
  destruct (Nat.eqb_spec (length approx) 4); [contradiction | ].
  destruct (Nat.ltb_spec 4 (length approx)) as [Hgt | Hle].
  - destruct (is_arrow np cv c) as [[ | ] | e]; cbn; intros H;
      try discriminate; injection H as <-;
      repeat split; intros; try discriminate; try lia; auto;
      destruct H as [H | H]; discriminate.
  - intros H; injection H as <-;
      repeat split; intros; try discriminate; try lia; auto;
      destruct H as [H | H]; discriminate.
Qed.

Lemma label_tells_vertex_count_witness :
  length Sketch.square = 4%nat.
Proof.
  apply (label_tells_vertex_count Sketch.np Sketch.cv Sketch.square
           Sketch.square "Square"%string).
  - reflexivity.
  - left. reflexivity.
Defined.

(** ** Properties of the capture loop *)

Lemma detect_shape_raises (np : Numpy) (cv : OpenCV) (img : image cv) (e : exn) :
  detect_shape np cv img = Raise e -> e = IndexError \/ e = CvError.
Proof.
  unfold detect_shape, primary_contour.
  destruct (find_contours cv img) as [ | c0 rest]; [discriminate | ].
  cbn [length Nat.eqb Py.max Py.bind]. intros H.
  destruct (classify_raises np cv _ _ e H) as (_ & Harrow).
  destruct (is_arrow_raises np cv _ e Harrow) as (_ & [[-> _] | [-> _]]); auto.
Qed.

Section CaptureFacts.

Context (np : Numpy) (cv : OpenCV).
Context (line : image cv -> point -> point -> Z * Z * Z -> Z -> image cv).
Context (zeros_like : image cv -> image cv).
Context (addWeighted : image cv -> float -> image cv -> float -> Z -> image cv).
Context (sep : string).

Local Notation key_step := (on_key np cv zeros_like sep).
Local Notation one_pass := (pass np cv line zeros_like addWeighted sep).
Local Notation loop := (run np cv line zeros_like addWeighted sep).

(** What the key dispatch leaves alone. *)
Lemma on_key_frame (k : Z) (frm combined : image cv) (g : Globals cv) :
  canvas cv g <> None ->
  forall out r g',
  key_step k frm combined g = (out, r, g') ->
  canvas cv g' <> None
  /\ (forall e, r = Raise e ->
        (e = IndexError \/ e = CvError) /\ k = ord "s"%char)
  /\ (k <> ord "m"%char -> mode cv g' = mode cv g)
  /\ (k <> ord "c"%char -> canvas cv g' = canvas cv g)
  /\ (k <> ord "m"%char -> k <> ord "c"%char -> g' = g)
  /\ (k <> ord "s"%char -> out = []).
Proof.
  intros Hc out r g'. unfold on_key.
  destruct (Z.eqb_spec k (ord "q"%char)) as [-> | Hq].
  { intros H. injection H as <- <- <-. repeat split; auto; discriminate. }
  destruct (Z.eqb_spec k (ord "m"%char)) as [-> | Hm].
  { intros H. injection H as <- <- <-.
    repeat split; auto; try discriminate; try contradiction. }
  destruct (Z.eqb_spec k (ord "s"%char)) as [-> | Hs].
  { destruct (canvas cv g) as [cnv | ] eqn:Ec; [ | contradiction].
    destruct (detect_shape np cv cnv) as [shape | e] eqn:Ed;
      intros H; injection H as <- <- <-;
      repeat split; auto; try discriminate; try contradiction;
      try (rewrite Ec; discriminate).
    injection H as <-. eapply detect_shape_raises; eauto. }
  destruct (Z.eqb_spec k (ord "c"%char)) as [-> | Hcl].
  { intros H. injection H as <- <- <-.
    repeat split; auto; try discriminate; try contradiction. }
  intros H. injection H as <- <- <-. repeat split; auto; discriminate.
Qed.

(** A pass that read a frame: the canvas exists before the events are
    delivered, the callback raises nothing, and the key is dispatched. *)
Lemma pass_read (t : tick cv) (g : Globals cv) :
  ret cv t = true ->
  exists g2 combined,
    canvas cv g2 <> None
    /\ mode cv g2 = mode cv g
    /\ (canvas cv g <> None -> mouse cv t = [] -> g2 = g)
    /\ one_pass t g
       = (let '(out, r, g3) :=
            key_step (Z.land (key cv t) 255) (frame cv t) combined g2 in
          (Shown "Frame"%string combined :: out, r, g3)).
Proof.
  intros Hret. unfold pass. rewrite Hret. cbn [negb].
  destruct (canvas cv g) as [img | ] eqn:Ec.
  - destruct (deliver_frame cv line (mouse cv t) g) as (Hm & Hcv & Hd).
    assert (Hne : canvas cv g <> None) by congruence.
    specialize (Hd Hne).
    destruct (deliver cv line (mouse cv t) g) as [[[] | e] g2] eqn:E;
      cbn [fst snd] in *; [ | discriminate].
    exists g2, (addWeighted (frame cv t) 0.7%float img 0.3%float 0%Z).
    repeat split; auto.
    + intros H. apply Hne, Hcv, H.
    + intros _ Hmouse. rewrite Hmouse in E. cbn in E. congruence.
  - set (g1 := with_canvas cv (zeros_like (frame cv t)) g).
    destruct (deliver_frame cv line (mouse cv t) g1) as (Hm & Hcv & Hd).
    assert (Hne : canvas cv g1 <> None) by (cbn; discriminate).
    specialize (Hd Hne).
    destruct (deliver cv line (mouse cv t) g1) as [[[] | e] g2] eqn:E;
      cbn [fst snd] in *; [ | discriminate].
    exists g2,
      (addWeighted (frame cv t) 0.7%float (zeros_like (frame cv t)) 0.3%float 0%Z).
    repeat split; auto.
    + intros H. apply Hne, Hcv, H.
    + intros H. contradiction.
Qed.

(** Any pass keeps a defined canvas defined and raises nothing but what
    [detect_shape] raises. *)
Lemma pass_frame (t : tick cv) (g : Globals cv) :
  forall out r g',
  one_pass t g = (out, r, g') ->
  (ret cv t = true \/ canvas cv g <> None -> canvas cv g' <> None)
  /\ (forall e, r = Raise e -> e = IndexError \/ e = CvError)
  /\ (key_is "m"%char t = false -> mode cv g' = mode cv g).
Proof.
  intros out r g' E.
  destruct (ret cv t) eqn:Hret.
  - destruct (pass_read t g Hret) as (g2 & combined & Hc & Hm & _ & Ep).
    rewrite Ep in E.
    destruct (key_step (Z.land (key cv t) 255) (frame cv t) combined g2)
      as [[out' r'] g3] eqn:Ek.
    injection E as <- <- <-.
    destruct (on_key_frame _ _ _ g2 Hc _ _ _ Ek) as (H1 & H2 & H3 & _).
    repeat split; auto.
    + intros e He. apply (H2 e He).
    + intros Hk. rewrite <- Hm. apply H3.
      unfold key_is in Hk. apply Z.eqb_neq, Hk.
  - unfold pass in E. rewrite Hret in E. cbn in E.
    injection E as <- <- <-. repeat split; auto.
    + intros [H | H]; [discriminate | exact H].
    + discriminate.
Qed.

End CaptureFacts.

Section CaptureLoop.

Context (np : Numpy) (cv : OpenCV).
Context (line : image cv -> point -> point -> Z * Z * Z -> Z -> image cv).
Context (zeros_like : image cv -> image cv).
Context (addWeighted : image cv -> float -> image cv -> float -> Z -> image cv).
Context (sep : string).

Local Notation key_step := (on_key np cv zeros_like sep).
Local Notation one_pass := (pass np cv line zeros_like addWeighted sep).
Local Notation loop := (run np cv line zeros_like addWeighted sep).

Lemma loop_cons (t : tick cv) (ts : list (tick cv)) (g : Globals cv) :
  loop (t :: ts) g
  = match one_pass t g with
    | (out, Ok Continue, g') =>
        let '(out', r, g'') := loop ts g' in (out ++ out', r, g'')
    | (out, Ok Break, g') => (out, Ok Ended, g')
    | (out, Raise e, g') => (out, Raise e, g')
    end.
Proof. reflexivity. Qed.

Lemma loop_defined (ts : list (tick cv)) :
  forall g, canvas cv g <> None -> canvas cv (snd (loop ts g)) <> None.
Proof.
  induction ts as [ | t ts IH]; intros g Hc; [exact Hc | ].
  rewrite loop_cons.
  destruct (one_pass t g) as [[out r] g'] eqn:E.
  destruct (pass_frame np cv line zeros_like addWeighted sep t g _ _ _ E)
    as (Hd & _ & _).
  specialize (Hd (or_intror Hc)).
  destruct r as [[ | ] | e]; cbn [snd]; auto.
  specialize (IH g' Hd).
  destruct (loop ts g') as [[out' r'] g'']. exact IH.
Qed.

(** Whatever the frames, mouse events and keys, the loop can end in an
    exception only through a save, and then the exception is one that
    [detect_shape] raised, [cv2.error] or IndexError: the callback never
    finds [canvas] undefined. *)
Theorem loop_raises_only_in_save (ts : list (tick cv)) (g : Globals cv)
        (e : exn) :
  snd (fst (loop ts g)) = Raise e ->
  (e = IndexError \/ e = CvError)
  /\ exists t, In t ts /\ key_is "s"%char t = true.
Proof.
  revert g. induction ts as [ | t ts IH]; intros g; [discriminate | ].
  rewrite loop_cons.
  destruct (one_pass t g) as [[out r] g'] eqn:E.
  destruct r as [[ | ] | e'].
  - specialize (IH g').
    destruct (loop ts g') as [[out' r'] g'']. cbn [fst snd] in *.
    intros H. destruct (IH H) as (He & t' & Ht' & Hk).
    split; [exact He | ]. exists t'. split; [right; exact Ht' | exact Hk].
  - discriminate.
  - cbn [fst snd]. intros H. injection H as ->.
    destruct (ret cv t) eqn:Hret.
    + destruct (pass_read np cv line zeros_like addWeighted sep t g Hret)
        as (g2 & combined & Hc & _ & _ & Ep).
      rewrite Ep in E.
      destruct (key_step (Z.land (key cv t) 255) (frame cv t) combined g2)
        as [[out2 r2] g3] eqn:Ek.
      injection E as _ -> _.
      destruct (on_key_frame np cv zeros_like sep _ _ _ g2 Hc _ _ _ Ek)
        as (_ & Hr & _).
      destruct (Hr e eq_refl) as [He Hs].
      split; [exact He | ]. exists t. split; [left; reflexivity | ].
      unfold key_is. apply Z.eqb_eq, Hs.
    + unfold pass in E. rewrite Hret in E. cbn in E. discriminate.
Qed.

(** After a pass that read a frame, [canvas] is defined, and it stays
    defined through the rest of the loop. *)
Theorem canvas_defined_after_first_frame (t : tick cv) (ts : list (tick cv))
        (g : Globals cv) :
  ret cv t = true ->
  canvas cv (snd (one_pass t g)) <> None
  /\ canvas cv (snd (loop (t :: ts) g)) <> None.
Proof.
  intros Hret. rewrite loop_cons.
  destruct (one_pass t g) as [[out r] g'] eqn:E.
  destruct (pass_frame np cv line zeros_like addWeighted sep t g _ _ _ E)
    as (Hd & _ & _).
  specialize (Hd (or_introl Hret)).
  split; [exact Hd | ].
  destruct r as [[ | ] | e]; cbn [snd]; auto.
  pose proof (loop_defined ts g' Hd) as H.
  destruct (loop ts g') as [[out' r'] g'']. exact H.
Qed.

(** The loop ends at the first pass that fails to read a frame or gets the
    key q: what the outside world supplies afterwards plays no part. *)
Theorem loop_stops_at_quit (pre : list (tick cv)) (t : tick cv)
        (rest : list (tick cv)) (g : Globals cv) :
  ret cv t = false \/ key_is "q"%char t = true ->
  loop (pre ++ t :: rest) g = loop (pre ++ [t]) g
  /\ snd (fst (loop (pre ++ t :: rest) g)) <> Ok Looping.
Proof.
  intros Hstop.
  assert (Hpass : forall g0, snd (fst (one_pass t g0)) <> Ok Continue).
  { intros g0. destruct (ret cv t) eqn:Hret.
    - destruct Hstop as [Hf | Hq]; [discriminate | ].
      destruct (pass_read np cv line zeros_like addWeighted sep t g0 Hret)
        as (g2 & combined & _ & _ & _ & Ep).
      rewrite Ep. unfold key_is in Hq. apply Z.eqb_eq in Hq. rewrite Hq.
      cbn. discriminate.
    - unfold pass. rewrite Hret. cbn. discriminate. }
  revert g. induction pre as [ | p pre IH]; intros g.
  - cbn [app]. rewrite !loop_cons. specialize (Hpass g).
    destruct (one_pass t g) as [[out r] g'].
    destruct r as [[ | ] | e]; cbn [fst snd] in *;
      try contradiction; split; try reflexivity; discriminate.
  - cbn [app]. rewrite !loop_cons.
    destruct (one_pass p g) as [[out r] g'].
    destruct r as [[ | ] | e]; cbn [fst snd];
      try (split; [reflexivity | discriminate]).
    destruct (IH g') as [IH1 IH2]. rewrite IH1.
    destruct (loop (pre ++ [t]) g') as [[out' r'] g''] eqn:El.
    rewrite IH1 in IH2. cbn [fst snd] in *. split; [reflexivity | exact IH2].
Qed.

End CaptureLoop.

Section CaptureKeys.

Context (np : Numpy) (cv : OpenCV).
Context (line : image cv -> point -> point -> Z * Z * Z -> Z -> image cv).
Context (zeros_like : image cv -> image cv).
Context (addWeighted : image cv -> float -> image cv -> float -> Z -> image cv).
Context (sep : string).

Local Notation key_step := (on_key np cv zeros_like sep).
Local Notation one_pass := (pass np cv line zeros_like addWeighted sep).
Local Notation loop := (run np cv line zeros_like addWeighted sep).

(** Only the low byte of the key code counts: two passes that differ in the
    key code by a multiple of 256 do the same. *)
Theorem key_code_low_byte (t t' : tick cv) (g : Globals cv) :
  ret cv t = ret cv t' ->
  frame cv t = frame cv t' ->
  mouse cv t = mouse cv t' ->
  (key cv t mod 256 = key cv t' mod 256)%Z ->
  one_pass t g = one_pass t' g.
Proof.
  intros Hr Hf Hm Hk.
  assert (Hland : forall k, Z.land k 255 = (k mod 256)%Z).
  { intros k. change 255%Z with (Z.ones 8). rewrite Z.land_ones by lia.
    reflexivity. }
  unfold pass. rewrite Hr, Hf, Hm, !Hland, Hk. reflexivity.
Qed.

(** Passes that read a frame and get the key m, however many mouse events
    come with them, keep the loop going and flip [mode] each time. *)
Theorem mode_toggles (ts : list (tick cv)) :
  forall g,
  forallb (fun t => ret cv t && key_is "m"%char t) ts = true ->
  snd (fst (loop ts g)) = Ok Looping
  /\ mode cv (snd (loop ts g))
     = (if Nat.even (length ts) then mode cv g else negb (mode cv g)).
Proof.
  induction ts as [ | t ts IH]; intros g Hts; [split; reflexivity | ].
  cbn [forallb] in Hts. apply andb_true_iff in Hts as [Ht Hts].
  apply andb_true_iff in Ht as [Hret Hk].
  destruct (pass_read np cv line zeros_like addWeighted sep t g Hret)
    as (g2 & combined & _ & Hm & _ & Ep).
  cbn [run]. fold (loop ts). rewrite Ep.
  unfold key_is in Hk. apply Z.eqb_eq in Hk. rewrite Hk.
  replace (key_step (ord "m") (frame cv t) combined g2)
    with (@nil (effect (image cv)), @Ok control Continue,
          with_mode cv (negb (mode cv g2)) g2) by reflexivity.
  cbv iota. cbn [app].
  destruct (IH (with_mode cv (negb (mode cv g2)) g2) Hts) as [IH1 IH2].
  destruct (loop ts (with_mode cv (negb (mode cv g2)) g2)) as [[out' r'] g''].
  cbn [fst snd] in *. split; [exact IH1 | ].
  rewrite IH2, Hm. cbn [length]. rewrite Nat.even_succ, <- Nat.negb_even.
  destruct (Nat.even (length ts)); cbn; [reflexivity | apply negb_involutive].
Qed.

(** Clearing the canvas and saving on the next frame reports
    "No shape detected", when an image of zeros is blank and the image
    operations keep blank images blank. *)
Theorem clear_then_save (blank : image cv -> Prop) (tc ts : tick cv)
        (g : Globals cv) :
  BlankLaws cv blank ->
  (forall img, blank (zeros_like img)) ->
  plain tc = true -> key_is "c"%char tc = true ->
  plain ts = true -> key_is "s"%char ts = true ->
  exists first,
    loop [tc; ts] g
    = (let second :=
         addWeighted (frame cv ts) 0.7%float (zeros_like (frame cv tc))
           0.3%float 0%Z in
       let path := path_join sep "frames" "annotated_frame.jpg" in
       ([Shown "Frame"%string first;
         Shown "Frame"%string second;
         Written path second;
         Printed ("Saved: " ++ path)%string;
         Printed "Detected shape: No shape detected"%string],
        Ok Looping,
        with_canvas cv (zeros_like (frame cv tc)) g)).
Proof.
  intros Laws Hzero Hpc Hkc Hps Hks.
  unfold plain in Hpc, Hps.
  apply andb_true_iff in Hpc as [Hrc Hmc].
  apply andb_true_iff in Hps as [Hrs Hms].
  destruct (mouse cv tc) eqn:Emc; [ | discriminate].
  destruct (mouse cv ts) eqn:Ems; [ | discriminate].
  unfold key_is in Hkc, Hks. apply Z.eqb_eq in Hkc, Hks.
  destruct (blank_canvas_no_shape np cv blank (zeros_like (frame cv tc)) Laws
              (Hzero _)) as [_ Hlabel].
  destruct (canvas cv g) as [img | ] eqn:Ec.
  - exists (addWeighted (frame cv tc) 0.7%float img 0.3%float 0%Z).
    unfold run, pass, on_key.
    rewrite Hrc, Hrs, Emc, Ems, Hkc, Hks, Ec. cbn. rewrite Hlabel. reflexivity.
  - exists (addWeighted (frame cv tc) 0.7%float (zeros_like (frame cv tc))
              0.3%float 0%Z).
    unfold run, pass, on_key.
    rewrite Hrc, Hrs, Emc, Ems, Hkc, Hks, Ec. cbn. rewrite Hlabel. reflexivity.
Qed.

(** A save writes the shown picture to [frames/annotated_frame.jpg], prints
    the path and the label of the canvas, keeps the loop going and changes
    no module variable; the label is one of the seven.  This is so when
    [convexityDefects] returns for the contours of the canvas and its rows
    are readable; when it raises, the loop ends in [cv2.error]. *)
Theorem save_reports_label (t : tick cv) (g : Globals cv) (cnv : image cv) :
  plain t = true -> key_is "s"%char t = true ->
  canvas cv g = Some cnv ->
  forallb (defects_ok cv) (find_contours cv cnv) = true ->
  exists label,
    In label shape_labels
    /\ detect_shape np cv cnv = Ok label
    /\ one_pass t g
       = (let combined :=
            addWeighted (frame cv t) 0.7%float cnv 0.3%float 0%Z in
          let path := path_join sep "frames" "annotated_frame.jpg" in
          ([Shown "Frame"%string combined;
            Written path combined;
            Printed ("Saved: " ++ path)%string;
            Printed ("Detected shape: " ++ label)%string],
           Ok Continue, g)).
Proof.
  intros Hp Hk Ec Hok.
  unfold plain in Hp. apply andb_true_iff in Hp as [Hr Hm].
  destruct (mouse cv t) eqn:Em; [ | discriminate].
  unfold key_is in Hk. apply Z.eqb_eq in Hk.
  assert (Hlabel : exists label,
             detect_shape np cv cnv = Ok label /\ In label shape_labels).
  { unfold detect_shape, primary_contour.
    destruct (find_contours cv cnv) as [ | c0 rest] eqn:E.
    - exists "No shape detected"%string. split; [reflexivity | cbn; tauto].
    - cbn [length Nat.eqb Py.max Py.bind]. apply classify_total.
      rewrite forallb_forall in Hok. apply Hok, max_from_In. }
  destruct Hlabel as (label & Hd & Hin).
  exists label. repeat split; auto.
  unfold pass, on_key. rewrite Hr, Em, Hk, Ec. cbn. rewrite Ec, Hd. reflexivity.
Qed.

(** Without the key m the loop leaves [mode] as it was, whatever the mouse
    does and however the loop ends. *)
Theorem loop_keeps_mode (ts : list (tick cv)) :
  forall g,
  forallb (fun t => negb (key_is "m"%char t)) ts = true ->
  mode cv (snd (loop ts g)) = mode cv g.
Proof.
  induction ts as [ | t ts IH]; intros g Hts; [reflexivity | ].
  cbn [forallb] in Hts. apply andb_true_iff in Hts as [Ht Hts].
  apply negb_true_iff in Ht.
  cbn [run]. fold (loop ts).
  destruct (one_pass t g) as [[out r] g'] eqn:E.
  destruct (pass_frame np cv line zeros_like addWeighted sep t g _ _ _ E)
    as (_ & _ & Hm).
  specialize (Hm Ht).
  destruct r as [[ | ] | e]; cbn [snd]; auto.
  specialize (IH g' Hts).
  destruct (loop ts g') as [[out' r'] g'']. cbn [snd] in *. congruence.
Qed.

(** Without mouse events and without the key c the loop leaves a defined
    canvas as it was: saving, toggling the mode and idle passes do not touch
    the drawing. *)
Theorem loop_keeps_canvas (ts : list (tick cv)) (img : image cv) :
  forall g,
  forallb (fun t => match mouse cv t with [] => true | _ => false end
                    && negb (key_is "c"%char t)) ts = true ->
  canvas cv g = Some img ->
  canvas cv (snd (loop ts g)) = Some img.
Proof.
  induction ts as [ | t ts IH]; intros g Hts Hc; [exact Hc | ].
  cbn [forallb] in Hts. apply andb_true_iff in Hts as [Ht Hts].
  apply andb_true_iff in Ht as [Hm Hk]. apply negb_true_iff in Hk.
  destruct (mouse cv t) eqn:Em; [ | discriminate].
  assert (Hne : canvas cv g <> None) by congruence.
  assert (Hpass : canvas cv (snd (one_pass t g)) = Some img).
  { destruct (ret cv t) eqn:Hret.
    - destruct (pass_read np cv line zeros_like addWeighted sep t g Hret)
        as (g2 & combined & Hc2 & _ & Hsame & Ep).
      rewrite Ep. specialize (Hsame Hne Em). subst g2.
      destruct (key_step (Z.land (key cv t) 255) (frame cv t) combined g)
        as [[out2 r2] g3] eqn:Ek.
      destruct (on_key_frame np cv zeros_like sep _ _ _ g Hne _ _ _ Ek)
        as (_ & _ & _ & Hcv & _).
      cbn [snd]. rewrite Hcv; [exact Hc | ].
      unfold key_is in Hk. apply Z.eqb_neq, Hk.
    - unfold pass. rewrite Hret. cbn. exact Hc. }
  cbn [run]. fold (loop ts).
  destruct (one_pass t g) as [[out r] g'] eqn:E. cbn [snd] in Hpass.
  destruct r as [[ | ] | e]; cbn [snd]; auto.
  specialize (IH g' Hts Hpass).
  destruct (loop ts g') as [[out' r'] g'']. exact IH.
Qed.

End CaptureKeys.

(** *** Runs in the polygon world *)

Lemma sketch_blank_laws : BlankLaws Sketch.cv (fun img => img = []).
Proof.
  constructor; cbn; auto.
Qed.

(** A save of a figure of eight, which [convexityDefects] refuses. *)
Lemma loop_raises_only_in_save_witness :
  (CvError = IndexError \/ CvError = CvError)
  /\ exists t,
       In t [Build_tick Sketch.cv true [] [] 115%Z]
       /\ key_is "s"%char t = true.
Proof.
  apply (loop_raises_only_in_save Sketch.np Sketch.cv Sketch.line
           Sketch.zeros_like Sketch.addWeighted "/"%string
           [Build_tick Sketch.cv true [] [] 115%Z]
           (with_canvas Sketch.cv [Sketch.scribble]
              (initial_globals Sketch.cv))
           CvError).
  reflexivity.
Defined.

(** The first frame, read before anything was drawn. *)
Lemma canvas_defined_after_first_frame_witness :
  canvas Sketch.cv
    (snd (pass Sketch.np Sketch.cv Sketch.line Sketch.zeros_like
            Sketch.addWeighted "/"%string
            (Build_tick Sketch.cv true [] [] (-1)%Z)
            (initial_globals Sketch.cv))) <> None.
Proof.
  apply (canvas_defined_after_first_frame Sketch.np Sketch.cv Sketch.line
           Sketch.zeros_like Sketch.addWeighted "/"%string
           (Build_tick Sketch.cv true [] [] (-1)%Z) []
           (initial_globals Sketch.cv)).
  reflexivity.
Defined.

(** An idle pass, the key q, then a save that is never reached. *)
Lemma loop_stops_at_quit_witness :
  run Sketch.np Sketch.cv Sketch.line Sketch.zeros_like Sketch.addWeighted
    "/"%string
    ([Build_tick Sketch.cv true [] [] (-1)%Z]
       ++ Build_tick Sketch.cv true [] [] 113%Z
       :: [Build_tick Sketch.cv true [] [] 115%Z])
    (initial_globals Sketch.cv)
  = run Sketch.np Sketch.cv Sketch.line Sketch.zeros_like Sketch.addWeighted
      "/"%string
      ([Build_tick Sketch.cv true [] [] (-1)%Z]
         ++ [Build_tick Sketch.cv true [] [] 113%Z])
      (initial_globals Sketch.cv).
Proof.
  apply (loop_stops_at_quit Sketch.np Sketch.cv Sketch.line Sketch.zeros_like
           Sketch.addWeighted "/"%string
           [Build_tick Sketch.cv true [] [] (-1)%Z]
           (Build_tick Sketch.cv true [] [] 113%Z)
           [Build_tick Sketch.cv true [] [] 115%Z]
           (initial_globals Sketch.cv)).
  right. reflexivity.
Defined.

(** The key q with a modifier bit set above the low byte. *)
Lemma key_code_low_byte_witness :
  pass Sketch.np Sketch.cv Sketch.line Sketch.zeros_like Sketch.addWeighted
    "/"%string (Build_tick Sketch.cv true [] [] 1048689%Z)
    (initial_globals Sketch.cv)
  = pass Sketch.np Sketch.cv Sketch.line Sketch.zeros_like Sketch.addWeighted
      "/"%string (Build_tick Sketch.cv true [] [] 113%Z)
      (initial_globals Sketch.cv).
Proof.
  apply (key_code_low_byte Sketch.np Sketch.cv Sketch.line Sketch.zeros_like
           Sketch.addWeighted "/"%string
           (Build_tick Sketch.cv true [] [] 1048689%Z)
           (Build_tick Sketch.cv true [] [] 113%Z)
           (initial_globals Sketch.cv)).
  - reflexivity.
  - reflexivity.
  - reflexivity.
  - reflexivity.
Defined.

(** The key m twice. *)
Lemma mode_toggles_witness :
  mode Sketch.cv
    (snd (run Sketch.np Sketch.cv Sketch.line Sketch.zeros_like
            Sketch.addWeighted "/"%string
            [Build_tick Sketch.cv true [] [] 109%Z;
             Build_tick Sketch.cv true [] [] 109%Z]
            (initial_globals Sketch.cv)))
  = true.
Proof.
  apply (mode_toggles Sketch.np Sketch.cv Sketch.line Sketch.zeros_like
           Sketch.addWeighted "/"%string
           [Build_tick Sketch.cv true [] [] 109%Z;
            Build_tick Sketch.cv true [] [] 109%Z]
           (initial_globals Sketch.cv)).
  reflexivity.
Defined.

(** An arrow on the canvas, the key c, then the key s. *)
Lemma clear_then_save_witness :
  exists first,
    run Sketch.np Sketch.cv Sketch.line Sketch.zeros_like Sketch.addWeighted
      "/"%string
      [Build_tick Sketch.cv true [] [] 99%Z;
       Build_tick Sketch.cv true [] [] 115%Z]
      (with_canvas Sketch.cv [Sketch.arrow] (initial_globals Sketch.cv))
    = ([Shown "Frame"%string first;
        Shown "Frame"%string [];
        Written "frames/annotated_frame.jpg"%string [];
        Printed "Saved: frames/annotated_frame.jpg"%string;
        Printed "Detected shape: No shape detected"%string],
       Ok Looping,
       with_canvas Sketch.cv [] (initial_globals Sketch.cv)).
Proof.
  apply (clear_then_save Sketch.np Sketch.cv Sketch.line Sketch.zeros_like
           Sketch.addWeighted "/"%string (fun img => img = [])
           (Build_tick Sketch.cv true [] [] 99%Z)
           (Build_tick Sketch.cv true [] [] 115%Z)
           (with_canvas Sketch.cv [Sketch.arrow] (initial_globals Sketch.cv))).
  - exact sketch_blank_laws.
  - reflexivity.
  - reflexivity.
  - reflexivity.
  - reflexivity.
  - reflexivity.
Defined.

(** A save of the arrow outline. *)
Lemma save_reports_label_witness :
  exists label,
    In label shape_labels
    /\ detect_shape Sketch.np Sketch.cv [Sketch.arrow] = Ok label
    /\ pass Sketch.np Sketch.cv Sketch.line Sketch.zeros_like
         Sketch.addWeighted "/"%string
         (Build_tick Sketch.cv true [] [] 115%Z)
         (with_canvas Sketch.cv [Sketch.arrow] (initial_globals Sketch.cv))
       = ([Shown "Frame"%string [Sketch.arrow];
           Written "frames/annotated_frame.jpg"%string [Sketch.arrow];
           Printed "Saved: frames/annotated_frame.jpg"%string;
           Printed ("Detected shape: " ++ label)%string],
          Ok Continue,
          with_canvas Sketch.cv [Sketch.arrow] (initial_globals Sketch.cv)).
Proof.
  apply (save_reports_label Sketch.np Sketch.cv Sketch.line Sketch.zeros_like
           Sketch.addWeighted "/"%string
           (Build_tick Sketch.cv true [] [] 115%Z)
           (with_canvas Sketch.cv [Sketch.arrow] (initial_globals Sketch.cv))
           [Sketch.arrow]).
  - reflexivity.
  - reflexivity.
  - reflexivity.
  - reflexivity.
Defined.

(** A gesture, a save and a clear, but no key m. *)
Lemma loop_keeps_mode_witness :
  mode Sketch.cv
    (snd (run Sketch.np Sketch.cv Sketch.line Sketch.zeros_like
            Sketch.addWeighted "/"%string
            [Build_tick Sketch.cv true []
               (gesture (0, 0)%Z [(4, 0); (4, 3)]%Z (0, 0)%Z) 115%Z;
             Build_tick Sketch.cv true [] [] 99%Z]
            (initial_globals Sketch.cv)))
  = true.
Proof.
  apply (loop_keeps_mode Sketch.np Sketch.cv Sketch.line Sketch.zeros_like
           Sketch.addWeighted "/"%string
           [Build_tick Sketch.cv true []
              (gesture (0, 0)%Z [(4, 0); (4, 3)]%Z (0, 0)%Z) 115%Z;
            Build_tick Sketch.cv true [] [] 99%Z]
           (initial_globals Sketch.cv)).
  reflexivity.
Defined.

(** A save, a mode toggle and an idle pass over a drawn arrow. *)
Lemma loop_keeps_canvas_witness :
  canvas Sketch.cv
    (snd (run Sketch.np Sketch.cv Sketch.line Sketch.zeros_like
            Sketch.addWeighted "/"%string
            [Build_tick Sketch.cv true [] [] 115%Z;
             Build_tick Sketch.cv true [] [] 109%Z;
             Build_tick Sketch.cv true [] [] (-1)%Z]
            (with_canvas Sketch.cv [Sketch.arrow] (initial_globals Sketch.cv))))
  = Some [Sketch.arrow].
Proof.
  apply (loop_keeps_canvas Sketch.np Sketch.cv Sketch.line Sketch.zeros_like
           Sketch.addWeighted "/"%string
           [Build_tick Sketch.cv true [] [] 115%Z;
            Build_tick Sketch.cv true [] [] 109%Z;
            Build_tick Sketch.cv true [] [] (-1)%Z]
           [Sketch.arrow]
           (with_canvas Sketch.cv [Sketch.arrow] (initial_globals Sketch.cv))).
  - reflexivity.
  - reflexivity.
Defined.
